(** * Big-Data-Analytics-for-Business: the Spark SQL and Joins notebooks and
      the cluster cheat sheet, embedded as data, with the analyses that settle
      the properties claimed about them.

    The repository holds no functions of its own: its content is two Jupyter
    notebooks (code cells, their recorded outputs, markdown cells) and a text
    file of gcloud commands.  The embedding therefore keeps the notebooks as
    the JSON has them (one record per cell, the source and the output text
    line by line) and the properties are computed from that text by a small
    lexer for the code cells, a renderer and a reader for the printed tables,
    a reader for the explain plans and a reader for the command lines. *)

From Stdlib Require Import String Ascii List Arith Bool Lia Permutation DecimalString.
Import ListNotations.
Local Open Scope list_scope.
Local Open Scope string_scope.
Local Open Scope nat_scope.

(** ** Characters that a string literal of this file does not spell out *)

(** The double quote (code 34) and the line feed (code 10). *)
Definition dq : string := String (ascii_of_nat 34) EmptyString.
Definition nl : string := String (ascii_of_nat 10) EmptyString.

(** ** The notebook format (nbformat 4), as far as the two notebooks use it *)

Inductive cell_kind : Set := markdown | code.

(** An output of a code cell: text written to a stream, or the value of the
    cell's last expression as the kernel echoed it.  Every element of [text]
    is one line; the JSON ends each of them but the last with a line feed. *)
Inductive output : Set :=
| stream (name : string) (text : list string)
| execute_result (execution_count : nat) (text_plain : list string).

Record cell : Set := mkCell {
  cell_type : cell_kind;
  execution_count : option nat;
  source : list string;
  outputs : list output
}.

Definition markdown_cell (src : list string) : cell :=
  mkCell markdown None src [].

Definition code_cell (n : nat) (src : list string) (outs : list output) : cell :=
  mkCell code (Some n) src outs.

(** ** docs/Supplementary-Materials/01-Spark-SQL.ipynb *)

Module SparkSQL.

Definition md01 : cell :=
  markdown_cell
    [ "# Spark SQL";
      EmptyString;
      "Spark SQL is arguably one of the most important and powerful features in Spark. In a nutshell, with Spark SQL you can run SQL queries against views or tables organized into databases. You also can use system functions or define user functions and analyze query plans in order to optimize their workloads. This integrates directly into the DataFrame API, and as we saw in previous classes, you can choose to express some of your data manipulations in SQL and others in DataFrames and they will compile to the same underlying code." ].

Definition md02 : cell :=
  markdown_cell
    [ "## Big Data and SQL: Apache Hive";
      EmptyString;
      "Before Spark’s rise, Hive was the de facto big data SQL access layer. Originally developed at Facebook, Hive became an incredibly popular tool across industry for performing SQL operations on big data. In many ways it helped propel Hadoop into different industries because analysts could run SQL queries. Although Spark began as a general processing engine with Resilient Distributed Datasets (RDDs), a large cohort of users now use Spark SQL.";
      EmptyString;
      "## Big Data and SQL: Spark SQL";
      EmptyString;
      "With the release of Spark 2.0, its authors created a superset of Hive’s support, writing a native SQL parser that supports both ANSI-SQL as well as HiveQL queries. This, along with its unique interoperability with DataFrames, makes it a powerful tool for all sorts of companies. For example, in late 2016, Facebook announced that it had begun running Spark workloads and seeing large benefits in doing so. In the words of the blog post’s authors:";
      EmptyString;
      ">We challenged Spark to replace a pipeline that decomposed to hundreds of Hive jobs into a single Spark job. Through a series of performance and reliability improvements, we were able to scale Spark to handle one of our entity ranking data processing use cases in production…. The Spark-based pipeline produced significant performance improvements (4.5–6x CPU, 3–4x resource reservation, and ~5x latency) compared with the old Hive-based pipeline, and it has been running in production for several months.";
      EmptyString;
      "The power of Spark SQL derives from several key facts: SQL analysts can now take advantage of Spark’s computation abilities by plugging into the Thrift Server or Spark’s SQL interface, whereas data engineers and scientists can use Spark SQL where appropriate in any data flow. This unifying API allows for data to be extracted with SQL, manipulated as a DataFrame, passed into one of Spark MLlibs’ large-scale machine learning algorithms, written out to another data source, and everything in between.";
      EmptyString;
      "**NOTE:** Spark SQL is intended to operate as an online analytic processing (OLAP) database, not an online transaction processing (OLTP) database. This means that it is not intended to perform extremely low-latency queries. Even though support for in-place modifications is sure to be something that comes up in the future, it’s not something that is currently available." ].

Definition In01 : cell :=
  code_cell 1
    [ "spark.sql(" ++ dq ++ "SELECT 1 + 1" ++ dq ++ ").show()" ]
    [ stream "stdout"
        [ "+-------+";
          "|(1 + 1)|";
          "+-------+";
          "|      2|";
          "+-------+";
          EmptyString ] ].

Definition md03 : cell :=
  markdown_cell
    [ "As we have seen before, you can completely interoperate between SQL and DataFrames, as you see fit. For instance, you can create a DataFrame, manipulate it with SQL, and then manipulate it again as a DataFrame. It’s a powerful abstraction that you will likely find yourself using quite a bit:" ].

Definition In02 : cell :=
  code_cell 2
    [ "bucket = spark._jsc.hadoopConfiguration().get(" ++ dq ++ "fs.gs.system.bucket" ++ dq ++ ")";
      "data = " ++ dq ++ "gs://" ++ dq ++ " + bucket + " ++ dq ++ "/notebooks/data/" ++ dq;
      EmptyString;
      "spark.read.json(data + " ++ dq ++ "flight-data/json/2015-summary.json" ++ dq ++ ")\";
      "  .createOrReplaceTempView(" ++ dq ++ "flights_view" ++ dq ++ ") # DF => SQL" ]
    [].

Definition In03 : cell :=
  code_cell 3
    [ "spark.sql(" ++ dq ++ dq ++ dq;
      "SELECT DEST_COUNTRY_NAME, sum(count)";
      "FROM flights_view GROUP BY DEST_COUNTRY_NAME";
      dq ++ dq ++ dq ++ ")\";
      "  .where(" ++ dq ++ "DEST_COUNTRY_NAME like 'S%'" ++ dq ++ ").where(" ++ dq ++ "`sum(count)` > 10" ++ dq ++ ")\";
      "  .count() # SQL => DF" ]
    [ execute_result 3
        [ "12" ] ].

Definition md04 : cell :=
  markdown_cell
    [ "## Creating Tables";
      EmptyString;
      "You can create tables from a variety of sources. For instance below we are creating a table from a SELECT statement:" ].

Definition In04 : cell :=
  code_cell 4
    [ "spark.sql('''";
      "CREATE TABLE IF NOT EXISTS flights_from_select USING parquet AS SELECT * FROM flights_view";
      "''')" ]
    [ execute_result 4
        [ "DataFrame[]" ] ].

Definition In05 : cell :=
  code_cell 5
    [ "spark.sql('SELECT * FROM flights_from_select').show(5)" ]
    [ stream "stdout"
        [ "+-----------------+-------------------+-----+";
          "|DEST_COUNTRY_NAME|ORIGIN_COUNTRY_NAME|count|";
          "+-----------------+-------------------+-----+";
          "|    United States|            Romania|   15|";
          "|    United States|            Croatia|    1|";
          "|    United States|            Ireland|  344|";
          "|            Egypt|      United States|   15|";
          "|    United States|              India|   62|";
          "+-----------------+-------------------+-----+";
          "only showing top 5 rows";
          EmptyString ] ].

Definition In06 : cell :=
  code_cell 6
    [ "spark.sql('''";
      "DESCRIBE TABLE flights_from_select";
      "''').show()" ]
    [ stream "stdout"
        [ "+-------------------+---------+-------+";
          "|           col_name|data_type|comment|";
          "+-------------------+---------+-------+";
          "|  DEST_COUNTRY_NAME|   string|   null|";
          "|ORIGIN_COUNTRY_NAME|   string|   null|";
          "|              count|   bigint|   null|";
          "+-------------------+---------+-------+";
          EmptyString ] ].

Definition md05 : cell :=
  markdown_cell
    [ "## Catalog";
      "The highest level abstraction in Spark SQL is the Catalog. The Catalog is an abstraction for the storage of metadata about the data stored in your tables as well as other helpful things like databases, tables, functions, and views. The catalog is available in the `spark.catalog` package and contains a number of helpful functions for doing things like listing tables, databases, and functions." ].

Definition In07 : cell :=
  code_cell 7
    [ "Cat = spark.catalog" ]
    [].

Definition In08 : cell :=
  code_cell 8
    [ "Cat.listTables()" ]
    [ execute_result 8
        [ "[Table(name='flights_from_select', database='default', description=None, tableType='MANAGED', isTemporary=False),";
          " Table(name='flights_view', database=None, description=None, tableType='TEMPORARY', isTemporary=True)]" ] ].

Definition In09 : cell :=
  code_cell 9
    [ "spark.sql('SHOW TABLES').show(5, False)" ]
    [ stream "stdout"
        [ "+--------+-------------------+-----------+";
          "|database|tableName          |isTemporary|";
          "+--------+-------------------+-----------+";
          "|default |flights_from_select|false      |";
          "|        |flights_view       |true       |";
          "+--------+-------------------+-----------+";
          EmptyString ] ].

Definition In10 : cell :=
  code_cell 10
    [ "Cat.listDatabases()" ]
    [ execute_result 10
        [ "[Database(name='default', description='Default Hive database', locationUri='hdfs://bigcluster-m/user/hive/warehouse')]" ] ].

Definition In11 : cell :=
  code_cell 11
    [ "spark.sql('SHOW DATABASES').show()" ]
    [ stream "stdout"
        [ "+------------+";
          "|databaseName|";
          "+------------+";
          "|     default|";
          "+------------+";
          EmptyString ] ].

Definition In12 : cell :=
  code_cell 12
    [ "Cat.listColumns('flights_from_select')" ]
    [ execute_result 12
        [ "[Column(name='DEST_COUNTRY_NAME', description=None, dataType='string', nullable=True, isPartition=False, isBucket=False),";
          " Column(name='ORIGIN_COUNTRY_NAME', description=None, dataType='string', nullable=True, isPartition=False, isBucket=False),";
          " Column(name='count', description=None, dataType='bigint', nullable=True, isPartition=False, isBucket=False)]" ] ].

Definition In13 : cell :=
  code_cell 13
    [ "Cat.listTables()" ]
    [ execute_result 13
        [ "[Table(name='flights_from_select', database='default', description=None, tableType='MANAGED', isTemporary=False),";
          " Table(name='flights_view', database=None, description=None, tableType='TEMPORARY', isTemporary=True)]" ] ].

Definition md06 : cell :=
  markdown_cell
    [ "### Caching Tables" ].

Definition In14 : cell :=
  code_cell 14
    [ "spark.sql('''";
      "CACHE TABLE flights_view";
      "''')" ]
    [ execute_result 14
        [ "DataFrame[]" ] ].

Definition In15 : cell :=
  code_cell 15
    [ "spark.sql('''";
      "UNCACHE TABLE flights_view";
      "''')" ]
    [ execute_result 15
        [ "DataFrame[]" ] ].

Definition md07 : cell :=
  markdown_cell
    [ "## Explain" ].

Definition In16 : cell :=
  code_cell 16
    [ "spark.sql('''";
      "EXPLAIN SELECT * FROM just_usa_view";
      "''').show(1, False)" ]
    [ stream "stdout"
        [ "+-----------------------------------------------------------------------------------------------------------------+";
          "|plan                                                                                                             |";
          "+-----------------------------------------------------------------------------------------------------------------+";
          "|== Physical Plan ==";
          "org.apache.spark.sql.AnalysisException: Table or view not found: just_usa_view; line 2 pos 22|";
          "+-----------------------------------------------------------------------------------------------------------------+";
          EmptyString ] ].

Definition md08 : cell :=
  markdown_cell
    [ "###  VIEWS - create/drop" ].

Definition In17 : cell :=
  code_cell 17
    [ "spark.sql('''";
      "CREATE VIEW just_usa_view AS";
      "  SELECT * FROM flights_from_select WHERE dest_country_name = 'United States'";
      "''')" ]
    [ execute_result 17
        [ "DataFrame[]" ] ].

Definition In18 : cell :=
  code_cell 18
    [ "spark.sql('''";
      "DROP VIEW IF EXISTS just_usa_view";
      "''')" ]
    [ execute_result 18
        [ "DataFrame[]" ] ].

Definition md09 : cell :=
  markdown_cell
    [ "### Drop tables" ].

Definition In19 : cell :=
  code_cell 19
    [ "spark.sql('DROP TABLE flights_from_select')" ]
    [ execute_result 19
        [ "DataFrame[]" ] ].

Definition In20 : cell :=
  code_cell 20
    [ "spark.sql('DROP TABLE IF EXISTS flights_from_select')" ]
    [ execute_result 20
        [ "DataFrame[]" ] ].

Definition md10 : cell :=
  markdown_cell
    [ "## `spark-sql`";
      EmptyString;
      "Go to the command line tool and check for the list of databases and tables. For instance:";
      EmptyString;
      "`SHOW TABLES`" ].

Definition cells : list cell :=
  [ md01; md02; In01; md03; In02; In03; md04; In04;
    In05; In06; md05; In07; In08; In09; In10; In11;
    In12; In13; md06; In14; In15; md07; In16; md08;
    In17; In18; md09; In19; In20; md10 ].

End SparkSQL.

(** ** The joins notebook *)

Module JoinsNb.

Definition md01 : cell :=
  markdown_cell
    [ "# Joins";
      EmptyString;
      "Spark applications can bring together a large number of different datasets. For this reason, joins are an essential part of nearly all Spark workloads. Spark’s ability to talk to different data means that you gain the ability to tap into a variety of data sources across your company. This notebook covers not just what types of joins exist in Spark and how to use them, but also some of the basic internals so that you can think about how Spark actually goes about executing the join on the cluster. This basic knowledge can help you avoid running out of memory and tackle problems that you could not solve before.";
      EmptyString;
      "## Join Expressions";
      EmptyString;
      "A join brings together two sets of data, the left and the right, by comparing the value of one or more keys of the left and right and evaluating the result of a join expression that determines whether Spark should bring together the left set of data with the right set of data. The most common join expression, an equi-join, compares whether the specified keys in your left and right datasets are equal. If they are equal, Spark will combine the left and right datasets. The opposite is true for keys that do not match; Spark discards the rows that do not have matching keys. Spark also allows for much more sophsticated join policies in addition to equi-joins. We can even use complex types and perform something like checking whether a key exists within an array when you perform a join.";
      EmptyString;
      "## Join Types";
      EmptyString;
      "Whereas the join expression determines whether two rows should join, the join type determines what should be in the result set. There are a variety of different join types available in Spark for you to use:";
      EmptyString;
      "* Inner joins (keep rows with keys that exist in the left and right datasets)";
      "* Outer joins (keep rows with keys in either the left or right datasets)";
      "* Left outer joins (keep rows with keys in the left dataset)";
      "* Right outer joins (keep rows with keys in the right dataset)";
      "* Left semi joins (keep the rows in the left, and only the left, dataset where the key appears in the right dataset)";
      "* Left anti joins (keep the rows in the left, and only the left, dataset where they do not appear in the right dataset)";
      "* Natural joins (perform a join by implicitly matching the columns between the two datasets with the same names)";
      "* Cross (or Cartesian) joins (match every row in the left dataset with every row in the right dataset)";
      EmptyString;
      "If you have ever interacted with a relational database system, or even an Excel spreadsheet, the concept of joining different datasets together should not be too abstract. Let’s move on to showing examples of each join type. This will make it easy to understand exactly how you can apply these to your own problems. To do this, let’s create some simple datasets that we can use in our examples:" ].

Definition In01 : cell :=
  code_cell 1
    [ "person = spark.createDataFrame([";
      "    (0, " ++ dq ++ "Bill Chambers" ++ dq ++ ", 0, [100]),";
      "    (1, " ++ dq ++ "Matei Zaharia" ++ dq ++ ", 1, [500, 250, 100]),";
      "    (2, " ++ dq ++ "Michael Armbrust" ++ dq ++ ", 1, [250, 100])])\";
      "  .toDF(" ++ dq ++ "id" ++ dq ++ ", " ++ dq ++ "name" ++ dq ++ ", " ++ dq ++ "graduate_program" ++ dq ++ ", " ++ dq ++ "spark_status" ++ dq ++ ")";
      EmptyString;
      "graduateProgram = spark.createDataFrame([";
      "    (0, " ++ dq ++ "Masters" ++ dq ++ ", " ++ dq ++ "School of Information" ++ dq ++ ", " ++ dq ++ "UC Berkeley" ++ dq ++ "),";
      "    (2, " ++ dq ++ "Masters" ++ dq ++ ", " ++ dq ++ "EECS" ++ dq ++ ", " ++ dq ++ "UC Berkeley" ++ dq ++ "),";
      "    (1, " ++ dq ++ "Ph.D." ++ dq ++ ", " ++ dq ++ "EECS" ++ dq ++ ", " ++ dq ++ "UC Berkeley" ++ dq ++ ")])\";
      "  .toDF(" ++ dq ++ "id" ++ dq ++ ", " ++ dq ++ "degree" ++ dq ++ ", " ++ dq ++ "department" ++ dq ++ ", " ++ dq ++ "school" ++ dq ++ ")";
      EmptyString;
      "person.show()";
      "graduateProgram.show()" ]
    [ stream "stdout"
        [ "+---+----------------+----------------+---------------+";
          "| id|            name|graduate_program|   spark_status|";
          "+---+----------------+----------------+---------------+";
          "|  0|   Bill Chambers|               0|          [100]|";
          "|  1|   Matei Zaharia|               1|[500, 250, 100]|";
          "|  2|Michael Armbrust|               1|     [250, 100]|";
          "+---+----------------+----------------+---------------+";
          EmptyString;
          "+---+-------+--------------------+-----------+";
          "| id| degree|          department|     school|";
          "+---+-------+--------------------+-----------+";
          "|  0|Masters|School of Informa...|UC Berkeley|";
          "|  2|Masters|                EECS|UC Berkeley|";
          "|  1|  Ph.D.|                EECS|UC Berkeley|";
          "+---+-------+--------------------+-----------+";
          EmptyString ] ].

Definition md02 : cell :=
  markdown_cell
    [ "Next, let’s register these as tables so that we use them:" ].

Definition In02 : cell :=
  code_cell 2
    [ "person.createOrReplaceTempView(" ++ dq ++ "person" ++ dq ++ ")";
      "graduateProgram.createOrReplaceTempView(" ++ dq ++ "graduateProgram" ++ dq ++ ")" ]
    [].

Definition md03 : cell :=
  markdown_cell
    [ "## Inner Joins";
      EmptyString;
      "Inner joins evaluate the keys in both of the DataFrames or tables and include (and join together) only the rows that evaluate to true. In the following example, we join the graduateProgram DataFrame with the person DataFrame to create a new DataFrame:" ].

Definition In03 : cell :=
  code_cell 3
    [ "joinExpression = person[" ++ dq ++ "graduate_program" ++ dq ++ "] == graduateProgram['id']" ]
    [].

Definition md04 : cell :=
  markdown_cell
    [ "Inner joins are the default join, so we just need to specify our left DataFrame and join the right in the JOIN expression:" ].

Definition In04 : cell :=
  code_cell 4
    [ "person.join(graduateProgram, joinExpression).show()" ]
    [ stream "stdout"
        [ "+---+----------------+----------------+---------------+---+-------+--------------------+-----------+";
          "| id|            name|graduate_program|   spark_status| id| degree|          department|     school|";
          "+---+----------------+----------------+---------------+---+-------+--------------------+-----------+";
          "|  0|   Bill Chambers|               0|          [100]|  0|Masters|School of Informa...|UC Berkeley|";
          "|  1|   Matei Zaharia|               1|[500, 250, 100]|  1|  Ph.D.|                EECS|UC Berkeley|";
          "|  2|Michael Armbrust|               1|     [250, 100]|  1|  Ph.D.|                EECS|UC Berkeley|";
          "+---+----------------+----------------+---------------+---+-------+--------------------+-----------+";
          EmptyString ] ].

Definition md05 : cell :=
  markdown_cell
    [ "We can also specify this explicitly by passing in a third parameter, the `how`:" ].

Definition In05 : cell :=
  code_cell 5
    [ "person.join(graduateProgram, ";
      "            on = person[" ++ dq ++ "graduate_program" ++ dq ++ "] == graduateProgram['id'],";
      "            how = " ++ dq ++ "inner" ++ dq ++ ").show()" ]
    [ stream "stdout"
        [ "+---+----------------+----------------+---------------+---+-------+--------------------+-----------+";
          "| id|            name|graduate_program|   spark_status| id| degree|          department|     school|";
          "+---+----------------+----------------+---------------+---+-------+--------------------+-----------+";
          "|  0|   Bill Chambers|               0|          [100]|  0|Masters|School of Informa...|UC Berkeley|";
          "|  1|   Matei Zaharia|               1|[500, 250, 100]|  1|  Ph.D.|                EECS|UC Berkeley|";
          "|  2|Michael Armbrust|               1|     [250, 100]|  1|  Ph.D.|                EECS|UC Berkeley|";
          "+---+----------------+----------------+---------------+---+-------+--------------------+-----------+";
          EmptyString ] ].

Definition md06 : cell :=
  markdown_cell
    [ "General join format:";
      EmptyString;
      "```python";
      "leftDF.join(rightDF, ";
      "            on = leftDF[" ++ dq ++ "abc" ++ dq ++ "] == rightDF[" ++ dq ++ "xyz" ++ dq ++ "], ";
      "            how = " ++ dq ++ "joinType" ++ dq ++ ")";
      "```";
      EmptyString;
      "In SQL";
      EmptyString;
      "```sql";
      "SELECT * FROM person INNER ";
      "JOIN graduateProgram";
      "ON person.graduate_program = graduateProgram.id";
      "```";
      EmptyString;
      "## Outer Joins";
      EmptyString;
      "Outer joins evaluate the keys in both of the DataFrames or tables and includes (and joins together) the rows that evaluate to true or false. If there is no equivalent row in either the left or right DataFrame, Spark will insert null:" ].

Definition In06 : cell :=
  code_cell 6
    [ "person.join(graduateProgram, ";
      "            on = person[" ++ dq ++ "graduate_program" ++ dq ++ "] == graduateProgram['id'],";
      "            how = " ++ dq ++ "outer" ++ dq ++ ").show()" ]
    [ stream "stdout"
        [ "+----+----------------+----------------+---------------+---+-------+--------------------+-----------+";
          "|  id|            name|graduate_program|   spark_status| id| degree|          department|     school|";
          "+----+----------------+----------------+---------------+---+-------+--------------------+-----------+";
          "|   0|   Bill Chambers|               0|          [100]|  0|Masters|School of Informa...|UC Berkeley|";
          "|   1|   Matei Zaharia|               1|[500, 250, 100]|  1|  Ph.D.|                EECS|UC Berkeley|";
          "|   2|Michael Armbrust|               1|     [250, 100]|  1|  Ph.D.|                EECS|UC Berkeley|";
          "|null|            null|            null|           null|  2|Masters|                EECS|UC Berkeley|";
          "+----+----------------+----------------+---------------+---+-------+--------------------+-----------+";
          EmptyString ] ].

Definition md07 : cell :=
  markdown_cell
    [ "In SQL";
      "```sql";
      "SELECT * FROM person ";
      "FULL OUTER JOIN graduateProgram";
      "ON graduate_program = graduateProgram.id";
      "```";
      EmptyString;
      "## Left Outer Joins";
      EmptyString;
      "Left outer joins evaluate the keys in both of the DataFrames or tables and includes all rows from the left DataFrame as well as any rows in the right DataFrame that have a match in the left DataFrame. If there is no equivalent row in the right DataFrame, Spark will insert null:" ].

Definition In07 : cell :=
  code_cell 7
    [ "graduateProgram.join(person, ";
      "                     on = person[" ++ dq ++ "graduate_program" ++ dq ++ "] == graduateProgram['id'],";
      "                     how = " ++ dq ++ "left_outer" ++ dq ++ ").show()" ]
    [ stream "stdout"
        [ "+---+-------+--------------------+-----------+----+----------------+----------------+---------------+";
          "| id| degree|          department|     school|  id|            name|graduate_program|   spark_status|";
          "+---+-------+--------------------+-----------+----+----------------+----------------+---------------+";
          "|  0|Masters|School of Informa...|UC Berkeley|   0|   Bill Chambers|               0|          [100]|";
          "|  1|  Ph.D.|                EECS|UC Berkeley|   1|   Matei Zaharia|               1|[500, 250, 100]|";
          "|  1|  Ph.D.|                EECS|UC Berkeley|   2|Michael Armbrust|               1|     [250, 100]|";
          "|  2|Masters|                EECS|UC Berkeley|null|            null|            null|           null|";
          "+---+-------+--------------------+-----------+----+----------------+----------------+---------------+";
          EmptyString ] ].

Definition md08 : cell :=
  markdown_cell
    [ "In SQL";
      "```sql";
      "SELECT * FROM graduateProgram ";
      "LEFT OUTER JOIN person";
      "ON person.graduate_program = graduateProgram.id";
      "```";
      EmptyString;
      "## Right Outer Joins";
      EmptyString;
      "Right outer joins are exactly the same as left outer joins if we replaced the order of left and right tables. It will result in a different ordering of the columns:" ].

Definition In08 : cell :=
  code_cell 8
    [ "person.join(graduateProgram, ";
      "            on = person[" ++ dq ++ "graduate_program" ++ dq ++ "] == graduateProgram['id'],";
      "            how = " ++ dq ++ "right_outer" ++ dq ++ ").show()" ]
    [ stream "stdout"
        [ "+----+----------------+----------------+---------------+---+-------+--------------------+-----------+";
          "|  id|            name|graduate_program|   spark_status| id| degree|          department|     school|";
          "+----+----------------+----------------+---------------+---+-------+--------------------+-----------+";
          "|   0|   Bill Chambers|               0|          [100]|  0|Masters|School of Informa...|UC Berkeley|";
          "|   1|   Matei Zaharia|               1|[500, 250, 100]|  1|  Ph.D.|                EECS|UC Berkeley|";
          "|   2|Michael Armbrust|               1|     [250, 100]|  1|  Ph.D.|                EECS|UC Berkeley|";
          "|null|            null|            null|           null|  2|Masters|                EECS|UC Berkeley|";
          "+----+----------------+----------------+---------------+---+-------+--------------------+-----------+";
          EmptyString ] ].

Definition md09 : cell :=
  markdown_cell
    [ "In SQL";
      "```sql";
      "SELECT * FROM person ";
      "RIGHT OUTER JOIN graduateProgram";
      "ON person.graduate_program = graduateProgram.id";
      "```";
      EmptyString;
      "## Left Semi Joins";
      EmptyString;
      "Semi joins are a bit of a departure from the other joins. They do not actually include any values from the right DataFrame. They only compare values to see if the value exists in the second DataFrame. If the value does exist, those rows will be kept in the result, even if there are duplicate keys in the left DataFrame. **Think of left semi joins as filters on a DataFrame**, as opposed to the function of a conventional join:" ].

Definition In09 : cell :=
  code_cell 9
    [ "graduateProgram.join(person, ";
      "                     on = person[" ++ dq ++ "graduate_program" ++ dq ++ "] == graduateProgram['id'],";
      "                     how = " ++ dq ++ "left_semi" ++ dq ++ ").show()" ]
    [ stream "stdout"
        [ "+---+-------+--------------------+-----------+";
          "| id| degree|          department|     school|";
          "+---+-------+--------------------+-----------+";
          "|  0|Masters|School of Informa...|UC Berkeley|";
          "|  1|  Ph.D.|                EECS|UC Berkeley|";
          "+---+-------+--------------------+-----------+";
          EmptyString ] ].

Definition md10 : cell :=
  markdown_cell
    [ "In SQL";
      "```sql";
      "SELECT * FROM gradProgram2 ";
      "LEFT SEMI JOIN person";
      "ON gradProgram2.id = person.graduate_program";
      "```";
      EmptyString;
      "## Left Anti Joins";
      EmptyString;
      "Left anti joins are the opposite of left semi joins. Like left semi joins, they do not actually include any values from the right DataFrame. They only compare values to see if the value exists in the second DataFrame. However, rather than keeping the values that exist in the second DataFrame, they keep only the values that do not have a corresponding key in the second DataFrame. Think of anti joins as a NOT IN SQL-style filter:" ].

Definition In10 : cell :=
  code_cell 10
    [ "graduateProgram.join(person, ";
      "                     on = person[" ++ dq ++ "graduate_program" ++ dq ++ "] == graduateProgram['id'],";
      "                     how = " ++ dq ++ "left_anti" ++ dq ++ ").show()" ]
    [ stream "stdout"
        [ "+---+-------+----------+-----------+";
          "| id| degree|department|     school|";
          "+---+-------+----------+-----------+";
          "|  2|Masters|      EECS|UC Berkeley|";
          "+---+-------+----------+-----------+";
          EmptyString ] ].

Definition md11 : cell :=
  markdown_cell
    [ "In SQL";
      "```sql";
      "SELECT * FROM graduateProgram ";
      "LEFT ANTI JOIN person";
      "ON graduateProgram.id = person.graduate_program";
      "```";
      EmptyString;
      "## Cross (Cartesian) Joins";
      EmptyString;
      "The last of our joins are cross-joins or cartesian products. Cross-joins in simplest terms are inner joins that do not specify a predicate. Cross joins will join every single row in the left DataFrame to ever single row in the right DataFrame. This will cause an absolute explosion in the number of rows contained in the resulting DataFrame. If you have 1,000 rows in each DataFrame, the cross-join of these will result in 1,000,000 (1,000 x 1,000) rows. For this reason, you must very explicitly state that you want a cross-join by using the cross join keyword:" ].

Definition In11 : cell :=
  code_cell 11
    [ "person.crossJoin(graduateProgram).show()" ]
    [ stream "stdout"
        [ "+---+----------------+----------------+---------------+---+-------+--------------------+-----------+";
          "| id|            name|graduate_program|   spark_status| id| degree|          department|     school|";
          "+---+----------------+----------------+---------------+---+-------+--------------------+-----------+";
          "|  0|   Bill Chambers|               0|          [100]|  0|Masters|School of Informa...|UC Berkeley|";
          "|  0|   Bill Chambers|               0|          [100]|  2|Masters|                EECS|UC Berkeley|";
          "|  0|   Bill Chambers|               0|          [100]|  1|  Ph.D.|                EECS|UC Berkeley|";
          "|  1|   Matei Zaharia|               1|[500, 250, 100]|  0|Masters|School of Informa...|UC Berkeley|";
          "|  2|Michael Armbrust|               1|     [250, 100]|  0|Masters|School of Informa...|UC Berkeley|";
          "|  1|   Matei Zaharia|               1|[500, 250, 100]|  2|Masters|                EECS|UC Berkeley|";
          "|  1|   Matei Zaharia|               1|[500, 250, 100]|  1|  Ph.D.|                EECS|UC Berkeley|";
          "|  2|Michael Armbrust|               1|     [250, 100]|  2|Masters|                EECS|UC Berkeley|";
          "|  2|Michael Armbrust|               1|     [250, 100]|  1|  Ph.D.|                EECS|UC Berkeley|";
          "+---+----------------+----------------+---------------+---+-------+--------------------+-----------+";
          EmptyString ] ].

Definition md12 : cell :=
  markdown_cell
    [ "# Challenges When Using Joins";
      EmptyString;
      "When performing joins, there are some specific challenges and some common questions that arise.";
      EmptyString;
      "## Handling Duplicate Column Names";
      EmptyString;
      "One of the tricky things that come up in joins is dealing with duplicate column names in your results DataFrame. In a DataFrame, each column has a unique ID within Spark’s SQL Engine, Catalyst. This unique ID is purely internal and not something that you can directly reference. This makes it quite difficult to refer to a specific column when you have a DataFrame with duplicate column names.";
      EmptyString;
      "This can occur in two distinct situations:";
      EmptyString;
      "* The join expression that you specify does not remove one key from one of the input DataFrames and the keys have the same column name";
      EmptyString;
      "* Two columns on which you are not performing the join have the same name";
      EmptyString;
      "Let’s create a problem dataset that we can use to illustrate these problems:" ].

Definition In12 : cell :=
  code_cell 12
    [ "gradProgramDupe = graduateProgram.withColumnRenamed(" ++ dq ++ "id" ++ dq ++ ", " ++ dq ++ "graduate_program" ++ dq ++ ")";
      EmptyString;
      "df = person.join(gradProgramDupe,";
      "                 on = person[" ++ dq ++ "graduate_program" ++ dq ++ "] == gradProgramDupe[" ++ dq ++ "graduate_program" ++ dq ++ "],";
      "                 how = " ++ dq ++ "inner" ++ dq ++ ")";
      "df.show()" ]
    [ stream "stdout"
        [ "+---+----------------+----------------+---------------+----------------+-------+--------------------+-----------+";
          "| id|            name|graduate_program|   spark_status|graduate_program| degree|          department|     school|";
          "+---+----------------+----------------+---------------+----------------+-------+--------------------+-----------+";
          "|  0|   Bill Chambers|               0|          [100]|               0|Masters|School of Informa...|UC Berkeley|";
          "|  1|   Matei Zaharia|               1|[500, 250, 100]|               1|  Ph.D.|                EECS|UC Berkeley|";
          "|  2|Michael Armbrust|               1|     [250, 100]|               1|  Ph.D.|                EECS|UC Berkeley|";
          "+---+----------------+----------------+---------------+----------------+-------+--------------------+-----------+";
          EmptyString ] ].

Definition md13 : cell :=
  markdown_cell
    [ "Note that there are now two graduate_program columns, even though we joined on that key:";
      EmptyString;
      "Now if we run the following command we will get an error because of the ambiguous column name:";
      EmptyString;
      "```python";
      "df.select(" ++ dq ++ "graduate_program" ++ dq ++ ").show()";
      "```";
      EmptyString;
      "Error:";
      "```";
      "AnalysisException: " ++ dq ++ "Reference 'graduate_program' is ambiguous, could be: graduate_program, graduate_program.;";
      "```";
      EmptyString;
      "### APPROACH 1: DIFFERENT JOIN EXPRESSION";
      EmptyString;
      "When you have two keys that have the same name, probably the easiest fix is to change the join expression from a Boolean expression to a string or sequence. This automatically removes one of the columns for you during the join:" ].

Definition In13 : cell :=
  code_cell 13
    [ "person.join(gradProgramDupe," ++ dq ++ "graduate_program" ++ dq ++ ").show()" ]
    [ stream "stdout"
        [ "+----------------+---+----------------+---------------+-------+--------------------+-----------+";
          "|graduate_program| id|            name|   spark_status| degree|          department|     school|";
          "+----------------+---+----------------+---------------+-------+--------------------+-----------+";
          "|               0|  0|   Bill Chambers|          [100]|Masters|School of Informa...|UC Berkeley|";
          "|               1|  1|   Matei Zaharia|[500, 250, 100]|  Ph.D.|                EECS|UC Berkeley|";
          "|               1|  2|Michael Armbrust|     [250, 100]|  Ph.D.|                EECS|UC Berkeley|";
          "+----------------+---+----------------+---------------+-------+--------------------+-----------+";
          EmptyString ] ].

Definition md14 : cell :=
  markdown_cell
    [ "### APPROACH 2: DROPPING THE COLUMN AFTER THE JOIN";
      EmptyString;
      "Another approach is to drop the offending column after the join. When doing this, we need to refer to the column via the original source DataFrame. We can do this if the join uses the same key names or if the source DataFrames have columns that simply have the same name:" ].

Definition In14 : cell :=
  code_cell 14
    [ "person.join(gradProgramDupe, ";
      "           person[" ++ dq ++ "graduate_program" ++ dq ++ "] == gradProgramDupe[" ++ dq ++ "graduate_program" ++ dq ++ "])\";
      "  .drop(person[" ++ dq ++ "graduate_program" ++ dq ++ "]).show()" ]
    [ stream "stdout"
        [ "+---+----------------+---------------+----------------+-------+--------------------+-----------+";
          "| id|            name|   spark_status|graduate_program| degree|          department|     school|";
          "+---+----------------+---------------+----------------+-------+--------------------+-----------+";
          "|  0|   Bill Chambers|          [100]|               0|Masters|School of Informa...|UC Berkeley|";
          "|  1|   Matei Zaharia|[500, 250, 100]|               1|  Ph.D.|                EECS|UC Berkeley|";
          "|  2|Michael Armbrust|     [250, 100]|               1|  Ph.D.|                EECS|UC Berkeley|";
          "+---+----------------+---------------+----------------+-------+--------------------+-----------+";
          EmptyString ] ].

Definition md15 : cell :=
  markdown_cell
    [ "### APPROACH 3: RENAMING A COLUMN BEFORE THE JOIN";
      EmptyString;
      "We can avoid this issue altogether if we rename one of our columns before the join:" ].

Definition In15 : cell :=
  code_cell 15
    [ "gradProgram3 = graduateProgram.withColumnRenamed(" ++ dq ++ "id" ++ dq ++ ", " ++ dq ++ "grad_id" ++ dq ++ ")";
      EmptyString;
      "person.join(gradProgram3, ";
      "           person[" ++ dq ++ "graduate_program" ++ dq ++ "] == gradProgram3[" ++ dq ++ "grad_id" ++ dq ++ "]).show()" ]
    [ stream "stdout"
        [ "+---+----------------+----------------+---------------+-------+-------+--------------------+-----------+";
          "| id|            name|graduate_program|   spark_status|grad_id| degree|          department|     school|";
          "+---+----------------+----------------+---------------+-------+-------+--------------------+-----------+";
          "|  0|   Bill Chambers|               0|          [100]|      0|Masters|School of Informa...|UC Berkeley|";
          "|  1|   Matei Zaharia|               1|[500, 250, 100]|      1|  Ph.D.|                EECS|UC Berkeley|";
          "|  2|Michael Armbrust|               1|     [250, 100]|      1|  Ph.D.|                EECS|UC Berkeley|";
          "+---+----------------+----------------+---------------+-------+-------+--------------------+-----------+";
          EmptyString ] ].

Definition md16 : cell :=
  markdown_cell
    [ "# How Spark Performs Joins";
      EmptyString;
      "To understand how Spark performs joins, you need to understand the two core resources at play: the node-to-node communication strategy and per node computation strategy. These internals are likely irrelevant to your business problem. However, comprehending how Spark performs joins can mean the difference between a job that completes quickly and one that never completes at all.";
      EmptyString;
      "## Communication Strategies";
      EmptyString;
      "Spark approaches cluster communication in two different ways during joins. It either incurs a *sort-merge join*, which results in an all-to-all communication or a *broadcast join*. The core foundation of our simplified view of joins is that in Spark you will have either a big table or a small table. Although this is obviously a spectrum (and things do happen differently if you have a “medium-sized table”), it can help to be binary about the distinction for the sake of this explanation.";
      EmptyString;
      "### BIG TABLE–TO–BIG TABLE";
      EmptyString;
      "When you join a big table to another big table, you end up with a sort-merge join. This behavior is standard as Spark 2.3.0 and as of the writing of this notebook. Prior to this version of Spark suffle hash join was the default, but it has changed since then. The implementation of sort-merge Join in Spark is similar to any other SQL engine, except the fact that it happens over partitions because of the distributed nature of data. ";
      EmptyString;
      "The illustration below represents how the data moves around different executors to make the join possible. If the DataFrames sharing the same partitioner are materialized by the same action, they will end up being co-located.";
      EmptyString;
      "<img src=" ++ dq ++ "https://github.com/soltaniehha/Big-Data-Analytics-for-Business/blob/master/figs/06-03-Joining-two-big-tables.png?raw=true" ++ dq ++ " width=" ++ dq ++ "700" ++ dq ++ " align=" ++ dq ++ "center" ++ dq ++ "/>" ].

Definition md17 : cell :=
  markdown_cell
    [ "In a sort-merge join, every node talks to every other node and they share data according to which node has a certain key or set of keys (on which you are joining). These joins are expensive because the network can become congested with traffic, especially if your DataFrames are not co-partitioned.";
      EmptyString;
      "This join describes taking a big table of data and joining it to another big table of data. An example of this might be a company that receives billions of messages every day from the Internet of Things, and needs to identify the day-over-day changes that have occurred. The way to do this is by joining on *deviceId*, *messageType*, and *date* in one column, and *date - 1 day* in the other column.";
      EmptyString;
      "In the figure above, DataFrame 1 and DataFrame 2 are both large DataFrames. This means that all worker nodes (and potentially every partition) will need to communicate with one another during the entire join process (with no intelligent partitioning of data).";
      EmptyString;
      "### BIG TABLE–TO–SMALL TABLE";
      EmptyString;
      "When the table is small enough to fit into the memory of a single worker node, with some breathing room of course, we can optimize our join. Although we can use a big table–to–big table communication strategy, it can often be more efficient to use a broadcast join. What this means is that we will replicate our small DataFrame onto every worker node in the cluster (be it located on one machine or many). Now this sounds expensive. However, what this does is to prevent us from performing the all-to-all communication during the entire join process. Instead, we perform it only once at the beginning and then let each individual worker node perform the work without having to wait or communicate with any other worker node, as is depicted in the figure below:";
      EmptyString;
      "<img src=" ++ dq ++ "https://github.com/soltaniehha/Big-Data-Analytics-for-Business/blob/master/figs/06-03-A-broadcast-join.png?raw=true" ++ dq ++ " width=" ++ dq ++ "700" ++ dq ++ " align=" ++ dq ++ "center" ++ dq ++ "/>" ].

Definition md18 : cell :=
  markdown_cell
    [ "At the beginning of this join will be a large communication, just like in the previous type of join. However, immediately after that first, there will be no further communication between nodes. This means that joins will be performed on every single node individually, making CPU the biggest bottleneck. For our current set of data, we can see that Spark has automatically set this up as a sort-merge join by looking at the explain plan:" ].

Definition In16 : cell :=
  code_cell 16
    [ "person.join(graduateProgram, ";
      "           person[" ++ dq ++ "graduate_program" ++ dq ++ "] == graduateProgram[" ++ dq ++ "id" ++ dq ++ "]).explain()" ]
    [ stream "stdout"
        [ "== Physical Plan ==";
          "*(5) SortMergeJoin [graduate_program#10L], [id#24L], Inner";
          ":- *(2) Sort [graduate_program#10L ASC NULLS FIRST], false, 0";
          ":  +- Exchange hashpartitioning(graduate_program#10L, 200)";
          ":     +- *(1) Project [_1#0L AS id#8L, _2#1 AS name#9, _3#2L AS graduate_program#10L, _4#3 AS spark_status#11]";
          ":        +- *(1) Filter isnotnull(_3#2L)";
          ":           +- Scan ExistingRDD[_1#0L,_2#1,_3#2L,_4#3]";
          "+- *(4) Sort [id#24L ASC NULLS FIRST], false, 0";
          "   +- Exchange hashpartitioning(id#24L, 200)";
          "      +- *(3) Project [_1#16L AS id#24L, _2#17 AS degree#25, _3#18 AS department#26, _4#19 AS school#27]";
          "         +- *(3) Filter isnotnull(_1#16L)";
          "            +- Scan ExistingRDD[_1#16L,_2#17,_3#18,_4#19]" ] ].

Definition md19 : cell :=
  markdown_cell
    [ "With the DataFrame API, we can explicitly give the optimizer a hint that we would like to use a broadcast join by using the correct function around the small DataFrame in question:" ].

Definition In17 : cell :=
  code_cell 17
    [ "from pyspark.sql.functions import broadcast";
      EmptyString;
      "person.join(broadcast(graduateProgram), ";
      "           person[" ++ dq ++ "graduate_program" ++ dq ++ "] == graduateProgram[" ++ dq ++ "id" ++ dq ++ "]).explain()" ]
    [ stream "stdout"
        [ "== Physical Plan ==";
          "*(2) BroadcastHashJoin [graduate_program#10L], [id#24L], Inner, BuildRight";
          ":- *(2) Project [_1#0L AS id#8L, _2#1 AS name#9, _3#2L AS graduate_program#10L, _4#3 AS spark_status#11]";
          ":  +- *(2) Filter isnotnull(_3#2L)";
          ":     +- Scan ExistingRDD[_1#0L,_2#1,_3#2L,_4#3]";
          "+- BroadcastExchange HashedRelationBroadcastMode(List(input[0, bigint, true]))";
          "   +- *(1) Project [_1#16L AS id#24L, _2#17 AS degree#25, _3#18 AS department#26, _4#19 AS school#27]";
          "      +- *(1) Filter isnotnull(_1#16L)";
          "         +- Scan ExistingRDD[_1#16L,_2#17,_3#18,_4#19]" ] ].

Definition md20 : cell :=
  markdown_cell
    [ "if you try to broadcast something too large, you can crash your driver node (because that collect is expensive). This is likely an area for optimization in the future.";
      EmptyString;
      "### LITTLE TABLE–TO–LITTLE TABLE";
      EmptyString;
      "When performing joins with small tables, it’s usually best to let Spark decide how to join them. You can always force a broadcast join if you’re noticing strange behavior." ].

Definition cells : list cell :=
  [ md01; In01; md02; In02; md03; In03; md04; In04;
    md05; In05; md06; In06; md07; In07; md08; In08;
    md09; In09; md10; In10; md11; In11; md12; In12;
    md13; In13; md14; In14; md15; In15; md16; md17;
    md18; In16; md19; In17; md20 ].

End JoinsNb.

(** ** The cheat sheet of cluster commands *)

Module CheatSheet.

Definition lines : list string :=
  [ "*******************************************";
    "******* CREATE SINGLE-NODE CLUSTER ********";
    "*******************************************";
    "gcloud beta dataproc clusters create mycluster \";
    "  --project <PROJECT-ID> \";
    "  --bucket <BUCKET-NAME> \";
    "  --optional-components=ANACONDA,JUPYTER \";
    "  --image-version=1.3 \";
    "  --enable-component-gateway \";
    "  --region us-east1 \";
    "  --zone us-east1-b \";
    "  --single-node \";
    "  --master-machine-type n1-highmem-2 \";
    "  --master-boot-disk-size 50";
    EmptyString;
    "****************************************************";
    "******* CREATE SINGLE-NODE CLUSTER ONE-LINER *******";
    "****************************************************";
    "gcloud beta dataproc clusters create mycluster --project <PROJECT-ID> --bucket <BUCKET-NAME> --optional-components=ANACONDA,JUPYTER --image-version=1.4 --enable-component-gateway --region us-east1 --zone us-east1-b --single-node --master-machine-type n1-highmem-2 --master-boot-disk-size 50";
    EmptyString;
    "**************************";
    "******* SSH Tunnel *******";
    "**************************";
    "gcloud compute ssh mycluster-m --zone us-east1-b -- -L 8080:localhost:8123";
    "# OR: Select the cluster and under web interfaces select Jupyter or Jupyter Lab.";
    EmptyString;
    "********************************";
    "******* JUPYTER NOTEBOOK *******";
    "********************************";
    "localhost:8080";
    EmptyString;
    "*********************************";
    "******* TERMINATE CLUSTER *******";
    "*********************************";
    "gcloud dataproc clusters delete mycluster --region us-east1" ].

End CheatSheet.

(** ** Text *)

Definition eqb_ascii_code (c : ascii) (n : nat) : bool := nat_of_ascii c =? n.

Definition is_letter (c : ascii) : bool :=
  let n := nat_of_ascii c in
  ((65 <=? n) && (n <=? 90)) || ((97 <=? n) && (n <=? 122)) || (n =? 95).

Definition is_digit (c : ascii) : bool :=
  let n := nat_of_ascii c in (48 <=? n) && (n <=? 57).

(** [contains p s]: the text [p] occurs in [s]. *)
Fixpoint contains (p s : string) : bool :=
  prefix p s ||
  match s with
  | EmptyString => false
  | String _ s' => contains p s'
  end.

Definition mem (x : string) (l : list string) : bool :=
  existsb (String.eqb x) l.

Definition subset (a b : list string) : bool :=
  forallb (fun x => mem x b) a.

(** The lines of a cell or of an output, put together again as the file has
    them: a line feed between two lines. *)
Definition unlines (ls : list string) : string := String.concat nl ls.

Definition output_text (o : output) : list string :=
  match o with
  | stream _ t => t
  | execute_result _ t => t
  end.

Definition is_code (c : cell) : bool :=
  match cell_type c with code => true | markdown => false end.

Definition code_cells (cells : list cell) : list cell := filter is_code cells.

Definition execution_counts (cells : list cell) : list (option nat) :=
  map execution_count (code_cells cells).

(** The code cell of a notebook that ran as [In [n]]. *)
Definition cell_numbered (cells : list cell) (n : nat) : option cell :=
  find (fun c => match execution_count c with
                 | Some k => k =? n
                 | None => false
                 end) (code_cells cells).

(** ** A lexer for the Python of the code cells

    One character at a time, with the state written out: names, numbers,
    string literals (one quote or three, of either kind), comments, and a
    backslash that joins a line to the next.  What is left is punctuation,
    one token per character. *)

Inductive token : Set :=
| TName (s : string)
| TNum (s : string)
| TStr (s : string)
| TOp (c : ascii)
| TNewline.

Inductive lex_mode : Set :=
| Plain
| InName (acc : list ascii)
| InNum (acc : list ascii)
| Quote1 (q : ascii)
| Quote2 (q : ascii)
| InStr (q : ascii) (acc : list ascii)
| InStrEscape (q : ascii) (acc : list ascii)
| InTriple (q : ascii) (closing : nat) (acc : list ascii)
| InComment
| Continuation.

(** The tokens are kept newest first while the text is read, and so are the
    characters of the token being read. *)
Definition lex_state : Set := (lex_mode * list token)%type.

Definition word (acc : list ascii) : string := string_of_list_ascii (rev acc).

Definition is_quote (c : ascii) : bool := eqb_ascii_code c 34 || eqb_ascii_code c 39.

Definition lex_plain (c : ascii) (out : list token) : lex_state :=
  if is_letter c then (InName [c], out)
  else if is_digit c then (InNum [c], out)
  else if is_quote c then (Quote1 c, out)
  else if eqb_ascii_code c 35 then (InComment, out)
  else if eqb_ascii_code c 10 then (Plain, TNewline :: out)
  else if eqb_ascii_code c 32 || eqb_ascii_code c 9 then (Plain, out)
  else if eqb_ascii_code c 92 then (Continuation, out)
  else (Plain, TOp c :: out).

Definition lex_step (st : lex_state) (c : ascii) : lex_state :=
  let (mode, out) := st in
  match mode with
  | Plain => lex_plain c out
  | InName acc =>
      if is_letter c || is_digit c then (InName (c :: acc), out)
      else lex_plain c (TName (word acc) :: out)
  | InNum acc =>
      if is_digit c then (InNum (c :: acc), out)
      else lex_plain c (TNum (word acc) :: out)
  | Quote1 q =>
      if Ascii.eqb c q then (Quote2 q, out)
      else if eqb_ascii_code c 92 then (InStrEscape q [c], out)
      else (InStr q [c], out)
  | Quote2 q =>
      if Ascii.eqb c q then (InTriple q 0 [], out)
      else lex_plain c (TStr EmptyString :: out)
  | InStr q acc =>
      if Ascii.eqb c q then (Plain, TStr (word acc) :: out)
      else if eqb_ascii_code c 92 then (InStrEscape q (c :: acc), out)
      else (InStr q (c :: acc), out)
  | InStrEscape q acc => (InStr q (c :: acc), out)
  | InTriple q closing acc =>
      if Ascii.eqb c q then
        match closing with
        | S (S _) => (Plain, TStr (word acc) :: out)
        | _ => (InTriple q (S closing) acc, out)
        end
      else (InTriple q 0 (c :: (repeat q closing ++ acc)%list), out)
  | InComment =>
      if eqb_ascii_code c 10 then (Plain, TNewline :: out) else (InComment, out)
  | Continuation =>
      if eqb_ascii_code c 10 then (Plain, out) else lex_plain c out
  end.

(** The end of the text closes a name, a number or an empty string; inside a
    string literal it is an error. *)
Definition lex_finish (st : lex_state) : option (list token) :=
  let (mode, out) := st in
  match mode with
  | Plain | InComment | Continuation => Some (rev out)
  | InName acc => Some (rev (TName (word acc) :: out))
  | InNum acc => Some (rev (TNum (word acc) :: out))
  | Quote2 _ => Some (rev (TStr EmptyString :: out))
  | Quote1 _ | InStr _ _ | InStrEscape _ _ | InTriple _ _ _ => None
  end.

Definition lex (s : string) : option (list token) :=
  lex_finish (fold_left lex_step (list_ascii_of_string s) (Plain, [])).

(** The tokens of a cell; a cell that does not lex has none. *)
Definition tokens (c : cell) : list token :=
  match lex (unlines (source c)) with
  | Some ts => ts
  | None => []
  end.

Definition lexes (c : cell) : bool :=
  match lex (unlines (source c)) with
  | Some _ => true
  | None => false
  end.

(** ** Reading the tokens: statements, names and calls *)

Definition is_op (t : token) (n : nat) : bool :=
  match t with
  | TOp c => eqb_ascii_code c n
  | _ => false
  end.

Definition opens (c : ascii) : bool :=
  eqb_ascii_code c 40 || eqb_ascii_code c 91 || eqb_ascii_code c 123.

Definition closes (c : ascii) : bool :=
  eqb_ascii_code c 41 || eqb_ascii_code c 93 || eqb_ascii_code c 125.

Definition nesting (depth : nat) (c : ascii) : nat :=
  if opens c then S depth else if closes c then pred depth else depth.

(** A line feed ends a statement unless a bracket is open. *)
Fixpoint split_statements (depth : nat) (cur : list token) (ts : list token)
  : list (list token) :=
  match ts with
  | [] => match cur with [] => [] | _ => [rev cur] end
  | TNewline :: ts' =>
      if depth =? 0 then
        match cur with
        | [] => split_statements 0 [] ts'
        | _ => rev cur :: split_statements 0 [] ts'
        end
      else split_statements depth cur ts'
  | TOp c :: ts' => split_statements (nesting depth c) (TOp c :: cur) ts'
  | t :: ts' => split_statements depth (t :: cur) ts'
  end.

Definition statements (c : cell) : list (list token) :=
  split_statements 0 [] (tokens c).

(** The reserved words of Python 3. *)
Definition python_keywords : list string :=
  [ "False"; "None"; "True"; "and"; "as"; "assert"; "async"; "await";
    "break"; "class"; "continue"; "def"; "del"; "elif"; "else"; "except";
    "finally"; "for"; "from"; "global"; "if"; "import"; "in"; "is";
    "lambda"; "nonlocal"; "not"; "or"; "pass"; "raise"; "return"; "try";
    "while"; "with"; "yield" ].

Definition is_keyword (x : string) : bool := mem x python_keywords.

(** What a name does where it stands. *)
Inductive role : Set :=
| Keyword        (* a reserved word *)
| ModulePath     (* between from and import *)
| Imported       (* after import *)
| Attribute      (* after a dot *)
| Bound          (* the target of an assignment *)
| KeywordArg     (* name = value inside a call *)
| Used.          (* any other occurrence: the name is read *)

Definition role_eqb (a b : role) : bool :=
  match a, b with
  | Keyword, Keyword | ModulePath, ModulePath | Imported, Imported
  | Attribute, Attribute | Bound, Bound | KeywordArg, KeywordArg
  | Used, Used => true
  | _, _ => false
  end.

Inductive import_phase : Set := NoImport | AfterFrom | AfterImport.

(** A single = follows (and not the == of a comparison). *)
Definition assigned_next (ts : list token) : bool :=
  match ts with
  | t1 :: t2 :: _ => is_op t1 61 && negb (is_op t2 61)
  | [t1] => is_op t1 61
  | [] => false
  end.

Definition after_dot (prev : option token) : bool :=
  match prev with
  | Some t => is_op t 46
  | None => false
  end.

Fixpoint classify (depth : nat) (ph : import_phase) (prev : option token)
  (ts : list token) : list (string * role) :=
  match ts with
  | [] => []
  | TName x :: ts' =>
      if is_keyword x then
        let ph' := if String.eqb x "from" then AfterFrom
                   else if String.eqb x "import" then AfterImport
                   else ph in
        (x, Keyword) :: classify depth ph' (Some (TName x)) ts'
      else
        let r := match ph with
                 | AfterFrom => ModulePath
                 | AfterImport => Imported
                 | NoImport =>
                     if after_dot prev then Attribute
                     else if assigned_next ts' then
                       (if depth =? 0 then Bound else KeywordArg)
                     else Used
                 end in
        (x, r) :: classify depth ph (Some (TName x)) ts'
  | TOp c :: ts' => classify (nesting depth c) ph (Some (TOp c)) ts'
  | t :: ts' => classify depth ph (Some t) ts'
  end.

Definition roles (stmt : list token) : list (string * role) :=
  classify 0 NoImport None stmt.

Definition names_with (r : role) (cl : list (string * role)) : list string :=
  map fst (filter (fun p => role_eqb (snd p) r) cl).

Definition cell_roles (c : cell) : list (string * role) :=
  flat_map roles (statements c).

(** A call: a name directly before an opening parenthesis, a method when a
    dot stands before the name. *)
Inductive call : Set :=
| Method (name : string)
| Function (name : string).

Definition callee (c : call) : string :=
  match c with Method n => n | Function n => n end.

Fixpoint call_sites (p2 p1 : option token) (ts : list token) : list call :=
  match ts with
  | [] => []
  | t :: ts' =>
      let rest := call_sites p1 (Some t) ts' in
      match p1 with
      | Some (TName f) =>
          if is_op t 40 && negb (is_keyword f) then
            (if after_dot p2 then Method f else Function f) :: rest
          else rest
      | _ => rest
      end
  end.

Definition calls (c : cell) : list call := call_sites None None (tokens c).

Definition string_literals (c : cell) : list string :=
  flat_map (fun t => match t with TStr s => [s] | _ => [] end) (tokens c).

Definition literals (c : cell) : list string :=
  flat_map (fun t => match t with
                     | TStr s => [s]
                     | TNum s => [s]
                     | _ => []
                     end) (tokens c).

(** ** Where the values of a notebook come from

    [spark] is the session the kernel provides.  A statement may read a name
    only when it is the session, a name an earlier statement bound, or a name
    an earlier statement imported; a function that is called by its bare name
    has to be an imported one. *)

Definition engine_session : string := "spark".
Definition engine_package : string := "pyspark".

Record scope : Set := mkScope {
  objects : list string;
  functions : list string
}.

Definition initial_scope : scope := mkScope [engine_session] [].

Definition function_calls (stmt : list token) : list string :=
  flat_map (fun c => match c with Function f => [f] | Method _ => [] end)
           (call_sites None None stmt).

Definition statement_ok (sc : scope) (stmt : list token) : bool :=
  let cl := roles stmt in
  subset (names_with Used cl) (objects sc ++ functions sc)%list
  && subset (function_calls stmt) (functions sc).

Definition bind (sc : scope) (stmt : list token) : scope :=
  let cl := roles stmt in
  mkScope (names_with Bound cl ++ objects sc)%list
          (names_with Imported cl ++ functions sc)%list.

Fixpoint flows (sc : scope) (stmts : list (list token)) : bool :=
  match stmts with
  | [] => true
  | s :: rest => statement_ok sc s && flows (bind sc s) rest
  end.

Definition notebook_statements (cells : list cell) : list (list token) :=
  flat_map statements (code_cells cells).

(** The package every import of a cell starts from: the first name after
    [from], or after an [import] that no [from] precedes. *)
Fixpoint import_roots (pending_from : bool) (cl : list (string * role))
  : list string :=
  match cl with
  | [] => []
  | (x, Keyword) :: rest =>
      let first := match rest with (m, _) :: _ => [m] | [] => [] end in
      if String.eqb x "from" then (first ++ import_roots true rest)%list
      else if String.eqb x "import" then
        (if pending_from then import_roots false rest
         else (first ++ import_roots false rest)%list)
      else import_roots pending_from rest
  | _ :: rest => import_roots pending_from rest
  end.

Definition imports_from (c : cell) : list string :=
  flat_map (fun s => import_roots false (roles s)) (statements c).

(** ** Reading the cheat sheet

    The file is a sequence of entries: a banner of three lines of asterisks
    with the title on the middle one, then the lines to paste, then an empty
    line. *)

Fixpoint split_on (sep : ascii) (cur : list ascii) (s : string) : list string :=
  match s with
  | EmptyString => [word cur]
  | String c s' =>
      if Ascii.eqb c sep then word cur :: split_on sep [] s'
      else split_on sep (c :: cur) s'
  end.

Definition is_empty (s : string) : bool :=
  match s with EmptyString => true | _ => false end.

Definition space : ascii := ascii_of_nat 32.

(** The words of a line: what stands between blanks. *)
Definition words (s : string) : list string :=
  filter (fun w => negb (is_empty w)) (split_on space [] s).

Fixpoint drop_while (p : ascii -> bool) (l : list ascii) : list ascii :=
  match l with
  | [] => []
  | c :: l' => if p c then drop_while p l' else l
  end.

(** [strip p s]: [s] without the characters of [p] at its two ends. *)
Definition strip (p : ascii -> bool) (s : string) : string :=
  string_of_list_ascii
    (rev (drop_while p (rev (drop_while p (list_ascii_of_string s))))).

Definition is_space (c : ascii) : bool := eqb_ascii_code c 32.
Definition is_star_or_space (c : ascii) : bool :=
  eqb_ascii_code c 42 || eqb_ascii_code c 32.

Definition trim (s : string) : string := strip is_space s.

Definition is_banner (l : string) : bool := prefix "*******" l.

Record entry : Set := mkEntry {
  title : string;
  body : list string
}.

Definition close_entry (cur : option entry) : list entry :=
  match cur with
  | Some e => [mkEntry (title e) (rev (body e))]
  | None => []
  end.

Definition add_line (l : string) (cur : option entry) : option entry :=
  match cur with
  | Some e => Some (mkEntry (title e) (l :: body e))
  | None => None
  end.

Fixpoint read_entries (cur : option entry) (ls : list string) : list entry :=
  match ls with
  | [] => close_entry cur
  | l :: ls' =>
      if is_banner l then
        let t := strip is_star_or_space l in
        if is_empty t then read_entries cur ls'
        else (close_entry cur ++ read_entries (Some (mkEntry t [])) ls')%list
      else if is_empty l then read_entries cur ls'
      else read_entries (add_line l cur) ls'
  end.

Definition entries : list entry := read_entries None CheatSheet.lines.

(** A backslash at the end of a line joins it to the next one, as the shell
    reads it. *)
Definition ends_with_backslash (l : string) : bool :=
  match rev (list_ascii_of_string l) with
  | c :: _ => eqb_ascii_code c 92
  | [] => false
  end.

Definition without_last (l : string) : string :=
  string_of_list_ascii (removelast (list_ascii_of_string l)).

Fixpoint logical_lines (pending : string) (ls : list string) : list string :=
  match ls with
  | [] => if is_empty pending then [] else [pending]
  | l :: ls' =>
      if ends_with_backslash l then logical_lines (pending ++ without_last l) ls'
      else (pending ++ l) :: logical_lines EmptyString ls'
  end.

Definition is_comment (l : string) : bool := prefix "#" (trim l).

(** The commands of an entry, each as its words; a comment is no command. *)
Definition commands (e : entry) : list (list string) :=
  map words (filter (fun l => negb (is_comment l)) (logical_lines EmptyString (body e))).

(** A command line read as gcloud reads it: the words before the flags, the
    flags each with its value (after = or as the next word), and what follows
    a bare double dash. *)
Record command_line : Set := mkCommand {
  positional : list string;
  flags : list (string * option string);
  passthrough : list string
}.

Definition is_flag (w : string) : bool := prefix "--" w && negb (String.eqb w "--").

(** [--name=value] split at its first equals sign. *)
Definition split_flag (w : string) : string * option string :=
  match split_on (ascii_of_nat 61) [] w with
  | [] => (w, None)
  | [k] => (k, None)
  | k :: vs => (k, Some (String.concat "=" vs))
  end.

Fixpoint parse_words (ws : list string) : command_line :=
  match ws with
  | [] => mkCommand [] [] []
  | w :: ws' =>
      if String.eqb w "--" then mkCommand [] [] ws'
      else if is_flag w then
        match split_flag w with
        | (k, Some v) =>
            let r := parse_words ws' in
            mkCommand (positional r) ((k, Some v) :: flags r) (passthrough r)
        | (k, None) =>
            match ws' with
            | v :: ws'' =>
                if prefix "-" v then
                  let r := parse_words ws' in
                  mkCommand (positional r) ((k, None) :: flags r) (passthrough r)
                else
                  let r := parse_words ws'' in
                  mkCommand (positional r) ((k, Some v) :: flags r) (passthrough r)
            | [] => mkCommand [] [(k, None)] []
            end
        end
      else
        let r := parse_words ws' in
        mkCommand (w :: positional r) (flags r) (passthrough r)
  end.

(** The parts of a cluster's life the sheet has commands for. *)
Inductive lifecycle : Set := CreateCluster | OpenTunnel | DeleteCluster.

Fixpoint has_pair (a b : string) (ws : list string) : bool :=
  match ws with
  | x :: ((y :: _) as ws') => (String.eqb x a && String.eqb y b) || has_pair a b ws'
  | _ => false
  end.

Definition lifecycle_of (ws : list string) : option lifecycle :=
  match ws with
  | "gcloud" :: rest =>
      let p := positional (parse_words rest) in
      if has_pair "clusters" "create" p then Some CreateCluster
      else if has_pair "clusters" "delete" p then Some DeleteCluster
      else if has_pair "compute" "ssh" p then Some OpenTunnel
      else None
  | _ => None
  end.

(** A value still to be filled in: [<NAME>]. *)
Definition is_placeholder (v : string) : bool :=
  prefix "<" v &&
  match rev (list_ascii_of_string v) with
  | c :: _ => eqb_ascii_code c 62
  | [] => false
  end.

Definition placeholders (c : command_line) : list string :=
  flat_map (fun f => match snd f with
                     | Some v => if is_placeholder v then [v] else []
                     | None => []
                     end) (flags c).

(** ** DataFrames with literal rows

    The engine is outside the repository; what the joins notebook fixes is
    the literal data of its first cell and the meaning of each join type as
    its markdown cells give it.  The definitions below follow those: a value
    is an integer, a string, an array of integers or null, a row is a list of
    values, and a join combines the rows of a left and a right DataFrame. *)

Inductive value : Set :=
| VInt (n : nat)
| VStr (s : string)
| VArr (l : list nat)
| VNull.

Definition row : Set := list value.

Record DataFrame : Set := mkDataFrame {
  columns : list string;
  rows : list row
}.

Definition nat_to_string (n : nat) : string :=
  NilZero.string_of_uint (Nat.to_uint n).

(** [createDataFrame] on a list of tuples names the columns _1, _2, ... *)
Definition createDataFrame (data : list row) : DataFrame :=
  let width := match data with r :: _ => List.length r | [] => 0 end in
  mkDataFrame (map (fun i => "_" ++ nat_to_string i) (seq 1 width)) data.

Definition toDF (df : DataFrame) (names : list string) : DataFrame :=
  mkDataFrame names (rows df).

(** In [1] of the joins notebook. *)
Definition person : DataFrame :=
  toDF (createDataFrame
    [ [VInt 0; VStr "Bill Chambers"; VInt 0; VArr [100]];
      [VInt 1; VStr "Matei Zaharia"; VInt 1; VArr [500; 250; 100]];
      [VInt 2; VStr "Michael Armbrust"; VInt 1; VArr [250; 100]] ])
    ["id"; "name"; "graduate_program"; "spark_status"].

Definition graduateProgram : DataFrame :=
  toDF (createDataFrame
    [ [VInt 0; VStr "Masters"; VStr "School of Information"; VStr "UC Berkeley"];
      [VInt 2; VStr "Masters"; VStr "EECS"; VStr "UC Berkeley"];
      [VInt 1; VStr "Ph.D."; VStr "EECS"; VStr "UC Berkeley"] ])
    ["id"; "degree"; "department"; "school"].

(** The literals of a DataFrame in the order its cell writes them: the rows,
    value by value, then the column names. *)
Definition value_literals (v : value) : list string :=
  match v with
  | VInt n => [nat_to_string n]
  | VStr s => [s]
  | VArr l => map nat_to_string l
  | VNull => []
  end.

Definition frame_literals (df : DataFrame) : list string :=
  (flat_map (flat_map value_literals) (rows df) ++ columns df)%list.

(** *** Columns and the join expression *)

Fixpoint index_of (name : string) (names : list string) : option nat :=
  match names with
  | [] => None
  | n :: names' =>
      if String.eqb n name then Some 0
      else option_map S (index_of name names')
  end.

(** [df[name]] evaluated on a row of [df]. *)
Definition col (df : DataFrame) (name : string) (r : row) : value :=
  match index_of name (columns df) with
  | Some i => nth i r VNull
  | None => VNull
  end.

Fixpoint nat_list_eqb (a b : list nat) : bool :=
  match a, b with
  | [], [] => true
  | x :: a', y :: b' => (x =? y) && nat_list_eqb a' b'
  | _, _ => false
  end.

(** Equality as a join condition tests it: null equals nothing. *)
Definition sql_eqb (a b : value) : bool :=
  match a, b with
  | VInt x, VInt y => x =? y
  | VStr x, VStr y => String.eqb x y
  | VArr x, VArr y => nat_list_eqb x y
  | _, _ => false
  end.

(** In [3]: person["graduate_program"] == graduateProgram['id'], on a row
    of person and a row of graduateProgram. *)
Definition joinExpression (p g : row) : bool :=
  sql_eqb (col person "graduate_program" p) (col graduateProgram "id" g).

(** *** The join types, as the notebook defines them *)

Inductive how : Set :=
| inner | outer | left_outer | right_outer | left_semi | left_anti.

Section JoinTypes.

(** [on l r]: the join expression on a left and a right row. *)
Variable on : row -> row -> bool.

(** Keep rows with keys that exist in the left and right datasets. *)
Definition inner_rows (L R : list row) : list row :=
  flat_map (fun l => map (fun r => (l ++ r)%list) (filter (on l) R)) L.

(** All rows of the left and the rows of the right that match; where the
    right has no row for a left one, null is inserted. *)
Definition left_outer_rows (padR : row) (L R : list row) : list row :=
  flat_map (fun l => match filter (on l) R with
                     | [] => [(l ++ padR)%list]
                     | ms => map (fun r => (l ++ r)%list) ms
                     end) L.

Definition right_outer_rows (padL : row) (L R : list row) : list row :=
  flat_map (fun r => match filter (fun l => on l r) L with
                     | [] => [(padL ++ r)%list]
                     | ms => map (fun l => (l ++ r)%list) ms
                     end) R.

(** Keep rows with keys in either the left or right datasets. *)
Definition full_outer_rows (padL padR : row) (L R : list row) : list row :=
  (left_outer_rows padR L R
   ++ map (fun r => (padL ++ r)%list)
          (filter (fun r => negb (existsb (fun l => on l r) L)) R))%list.

(** Keep the rows in the left, and only the left, dataset where the key
    appears in the right dataset. *)
Definition left_semi_rows (L R : list row) : list row :=
  filter (fun l => existsb (on l) R) L.

(** Keep the rows in the left, and only the left, dataset where they do
    not appear in the right dataset. *)
Definition left_anti_rows (L R : list row) : list row :=
  filter (fun l => negb (existsb (on l) R)) L.

End JoinTypes.

(** Match every row in the left dataset with every row in the right one. *)
Definition cross_rows (L R : list row) : list row :=
  flat_map (fun l => map (fun r => (l ++ r)%list) R) L.

Definition nulls (df : DataFrame) : row :=
  repeat VNull (List.length (columns df)).

(** [L.join(R, on, how)]. *)
Definition join (L R : DataFrame) (on : row -> row -> bool) (h : how) : DataFrame :=
  let both := (columns L ++ columns R)%list in
  match h with
  | inner => mkDataFrame both (inner_rows on (rows L) (rows R))
  | outer => mkDataFrame both (full_outer_rows on (nulls L) (nulls R) (rows L) (rows R))
  | left_outer => mkDataFrame both (left_outer_rows on (nulls R) (rows L) (rows R))
  | right_outer => mkDataFrame both (right_outer_rows on (nulls L) (rows L) (rows R))
  | left_semi => mkDataFrame (columns L) (left_semi_rows on (rows L) (rows R))
  | left_anti => mkDataFrame (columns L) (left_anti_rows on (rows L) (rows R))
  end.

Definition crossJoin (L R : DataFrame) : DataFrame :=
  mkDataFrame (columns L ++ columns R)%list (cross_rows (rows L) (rows R)).

Definition count (df : DataFrame) : nat := List.length (rows df).

(** *** [show()]: the table as the engine prints it

    A cell of more than twenty characters is cut to seventeen and three
    dots, every column is as wide as its widest cell and at least three
    characters, and cells are aligned to the right. *)

Definition value_text (v : value) : string :=
  match v with
  | VInt n => nat_to_string n
  | VStr s => s
  | VArr l => "[" ++ String.concat ", " (map nat_to_string l) ++ "]"
  | VNull => "null"
  end.

Definition truncate (n : nat) (s : string) : string :=
  if String.length s <=? n then s else substring 0 (n - 3) s ++ "...".

Definition fill (c : ascii) (n : nat) : string :=
  string_of_list_ascii (repeat c n).

Definition pad_left (w : nat) (s : string) : string :=
  fill space (w - String.length s) ++ s.

Fixpoint zip_with {A B C : Type} (f : A -> B -> C) (a : list A) (b : list B)
  : list C :=
  match a, b with
  | x :: a', y :: b' => f x y :: zip_with f a' b'
  | _, _ => []
  end.

Definition col_widths (header : list string) (cells : list (list string))
  : list nat :=
  fold_left (fun ws r => zip_with Nat.max ws (map String.length r)) cells
            (map (fun h => Nat.max 3 (String.length h)) header).

Definition rule (widths : list nat) : string :=
  "+" ++ String.concat EmptyString (map (fun w => fill (ascii_of_nat 45) w ++ "+") widths).

Definition table_line (widths : list nat) (cells : list string) : string :=
  "|" ++ String.concat EmptyString (zip_with (fun w c => pad_left w c ++ "|") widths cells).

Definition show_cells (df : DataFrame) : list (list string) :=
  map (map (fun v => truncate 20 (value_text v))) (rows df).

Definition show_rows (df : DataFrame) : list string :=
  map (table_line (col_widths (columns df) (show_cells df))) (show_cells df).

Definition show_head (df : DataFrame) : list string :=
  let ws := col_widths (columns df) (show_cells df) in
  [rule ws; table_line ws (columns df); rule ws].

Definition show (df : DataFrame) : list string :=
  (show_head df ++ show_rows df
   ++ [rule (col_widths (columns df) (show_cells df)); EmptyString])%list.

(** *** Reading a printed table back *)

Definition is_rule (l : string) : bool := prefix "+-" l.
Definition is_table_line (l : string) : bool := prefix "|" l.

(** The cells of a printed line, without the blanks that pad them. *)
Definition read_line (l : string) : list string :=
  match split_on (ascii_of_nat 124) [] l with
  | _ :: cells => map trim (removelast cells)
  | [] => []
  end.

(** The header and the rows of the first table of a transcript. *)
Definition read_table (text : list string) : list (list string) :=
  map read_line (filter is_table_line text).

Definition stdout (c : cell) : list string :=
  flat_map (fun o => match o with
                     | stream name t => if String.eqb name "stdout" then t else []
                     | execute_result _ _ => []
                     end) (outputs c).

(** The rows of a printed table: its lines between the second and the last
    rule. *)
Definition printed_rows (text : list string) : list string :=
  filter is_table_line (skipn 3 text).

(** ** Reading an explain plan

    [explain()] prints the physical plan as a tree, one operator per line:
    an input is drawn three columns to the right of its operator, after a
    branch mark, and a whole-stage-codegen operator carries a star and its
    stage number in front. *)

Local Unset Elimination Schemes.
Inductive plan : Set :=
| Node (operator : string) (arguments : string) (inputs : list plan).
Local Set Elimination Schemes.

Definition is_branch_mark (c : ascii) : bool :=
  eqb_ascii_code c 58 || eqb_ascii_code c 32
  || eqb_ascii_code c 43 || eqb_ascii_code c 45.

Fixpoint take_while {A : Type} (p : A -> bool) (l : list A) : list A :=
  match l with
  | [] => []
  | x :: l' => if p x then x :: take_while p l' else []
  end.

Fixpoint skip_while {A : Type} (p : A -> bool) (l : list A) : list A :=
  match l with
  | [] => []
  | x :: l' => if p x then skip_while p l' else l
  end.

(** The first word of a text and what follows its blank. *)
Definition first_word (s : string) : string * string :=
  let cs := list_ascii_of_string s in
  let not_space := fun c => negb (is_space c) in
  (string_of_list_ascii (take_while not_space cs),
   string_of_list_ascii (tl (skip_while not_space cs))).

Record plan_line : Set := mkPlanLine {
  depth : nat;
  line_operator : string;
  line_arguments : string
}.

Definition read_plan_line (l : string) : plan_line :=
  let cs := list_ascii_of_string l in
  let marks := take_while is_branch_mark cs in
  let text := string_of_list_ascii (skip_while is_branch_mark cs) in
  let (w, rest) := first_word text in
  let (op, args) := if prefix "*(" w then first_word rest else (w, rest) in
  mkPlanLine (List.length marks / 3) op args.

(** The lines are the tree in preorder.  Read from the last line to the
    first, an operator takes as its inputs the trees that stand one level
    deeper right behind it. *)
Definition attach (l : plan_line) (forest : list (nat * plan)) : list (nat * plan) :=
  let deeper := fun t : nat * plan => fst t =? S (depth l) in
  (depth l, Node (line_operator l) (line_arguments l) (map snd (take_while deeper forest)))
  :: skip_while deeper forest.

Definition is_plan_header (l : string) : bool := prefix "==" l.

Definition read_plan (text : list string) : option plan :=
  let body := filter (fun l => negb (is_plan_header l || is_empty l)) text in
  match fold_right attach [] (map read_plan_line body) with
  | [(0, p)] => Some p
  | _ => None
  end.

Fixpoint nodes (p : plan) : list (string * string) :=
  match p with
  | Node op args ins => (op, args) :: flat_map nodes ins
  end.

Definition operators (p : plan) : list string := map fst (nodes p).

Definition root (p : plan) : string * string :=
  match p with Node op args _ => (op, args) end.

Definition inputs_of (p : plan) : list plan :=
  match p with Node _ _ ins => ins end.

(** The texts between an opening and the next closing bracket. *)
Fixpoint groups (opening closing : ascii) (cur : option (list ascii)) (s : string)
  : list string :=
  match s with
  | EmptyString => []
  | String c s' =>
      match cur with
      | None =>
          if Ascii.eqb c opening then groups opening closing (Some []) s'
          else groups opening closing None s'
      | Some acc =>
          if Ascii.eqb c closing then word acc :: groups opening closing None s'
          else groups opening closing (Some (c :: acc)) s'
      end
  end.

(** The keys of a join operator, left then right: [[k1], [k2], Inner]. *)
Definition join_keys (p : plan) : list string :=
  firstn 2 (groups (ascii_of_nat 91) (ascii_of_nat 93) None (snd (root p))).

(** A sort on [k]: Sort [k ASC NULLS FIRST], ... *)
Definition sorts_on (k : string) (n : string * string) : bool :=
  String.eqb (fst n) "Sort" && prefix ("[" ++ k ++ " ") (snd n).

(** A shuffle: an Exchange that partitions by hash. *)
Definition is_shuffle (n : string * string) : bool :=
  String.eqb (fst n) "Exchange" && prefix "hashpartitioning(" (snd n).

Definition shuffles_on (k : string) (n : string * string) : bool :=
  String.eqb (fst n) "Exchange" && prefix ("hashpartitioning(" ++ k ++ ",") (snd n).

Definition is_broadcast (n : string * string) : bool :=
  String.eqb (fst n) "BroadcastExchange".

(** An input of a sort-merge join as the glossary asks for it: partitioned
    and sorted on the join key. *)
Definition partitioned_and_sorted_on (k : string) (p : plan) : bool :=
  existsb (sorts_on k) (nodes p) && existsb (shuffles_on k) (nodes p).

(** ** The shape of a cell *)

Definition all_cells : list cell := (SparkSQL.cells ++ JoinsNb.cells)%list.

Definition number (c : cell) : nat :=
  match execution_count c with Some n => n | None => 0 end.

Definition numbers (cells : list cell) : list nat := map number cells.

(** The methods whose effect is to print: the table of a DataFrame and the
    plan of a query. *)
Definition printing_methods : list string := ["show"; "explain"].

(** The calls of a cell that do the work: all but the printing ones. *)
Definition work_calls (c : cell) : list call :=
  filter (fun k => negb (mem (callee k) printing_methods)) (calls c).

(** The cell left something on the page: a stream or an echoed value. *)
Definition prints (c : cell) : bool :=
  match outputs c with [] => false | _ => true end.

Definition single_call_and_prints (c : cell) : bool :=
  (List.length (work_calls c) =? 1) && prints c.

Definition chains_calls (c : cell) : bool := 2 <=? List.length (work_calls c).

Definition works_silently (c : cell) : bool :=
  (1 <=? List.length (work_calls c)) && negb (prints c).

(** An entry of the cheat sheet that is one command of the cluster's life. *)
Definition entry_lifecycle (e : entry) : option lifecycle :=
  match commands e with
  | [ws] => lifecycle_of ws
  | _ => None
  end.

Definition pastes_lifecycle_command (e : entry) : bool :=
  match entry_lifecycle e with Some _ => true | None => false end.

(** ** Errors on the page *)

Definition error_markers : list string := ["Exception"; "Error"; "Traceback"].

Definition mentions_error (ls : list string) : bool :=
  existsb (fun l => existsb (fun m => contains m l) error_markers) ls.

Definition output_lines (c : cell) : list string :=
  flat_map output_text (outputs c).

Definition error_in_output (c : cell) : bool := mentions_error (output_lines c).

(** An error is shown by a cell when its recorded output has it, or when the
    text of a markdown cell quotes it. *)
Definition shows_error (c : cell) : bool :=
  error_in_output c ||
  match cell_type c with
  | markdown => mentions_error (source c)
  | code => false
  end.

(** The words with which Python code catches, raises or tests for errors. *)
Definition handling_keywords : list string :=
  ["try"; "except"; "finally"; "raise"; "assert"].

Definition handles_errors (c : cell) : bool :=
  existsb (fun k => mem k handling_keywords) (names_with Keyword (cell_roles c)).

(** The cell runs a statement of SQL that has [phrase] in it. *)
Definition runs_sql (phrase : string) (c : cell) : bool :=
  is_code c && existsb (contains phrase) (string_literals c).

(** ** The interfaces a cell goes through *)

(** An attribute whose name starts with an underscore is not part of the
    public API of the object it is read from. *)
Definition private_attributes (c : cell) : list string :=
  filter (prefix "_") (names_with Attribute (cell_roles c)).

(** A string literal that addresses storage by a URL. *)
Definition storage_urls (c : cell) : list string :=
  filter (contains "://") (string_literals c).

Definition public_api_only (c : cell) : bool :=
  match private_attributes c, storage_urls c with
  | [], [] => true
  | _, _ => false
  end.

(** A line handed to the shell or to the kernel's magics from a cell. *)
Definition shell_escapes (c : cell) : list string :=
  filter (fun l => prefix "!" (trim l) || prefix "%" (trim l)) (source c).

(** ** Definitions of the cell's own *)

Definition defining_keywords : list string := ["def"; "class"; "lambda"].

(** The names through which the engine takes a user-defined function. *)
Definition udf_names : list string :=
  ["udf"; "pandas_udf"; "register"; "registerJavaFunction"; "UserDefinedFunction"].

Definition defines_its_own (c : cell) : bool :=
  existsb (fun p => (role_eqb (snd p) Keyword && mem (fst p) defining_keywords)
                    || (negb (role_eqb (snd p) Keyword) && mem (fst p) udf_names))
          (cell_roles c).

Definition is_method (k : call) : bool :=
  match k with Method _ => true | Function _ => false end.

(** ** The two create commands of the cheat sheet *)

Definition entry_titled (t : string) : option entry :=
  find (fun e => String.eqb (title e) t) entries.

(** The one command of the entry with the given title, read as a command
    line. *)
Definition command_of (t : string) : option command_line :=
  match entry_titled t with
  | Some e => match commands e with
              | [ws] => Some (parse_words ws)
              | _ => None
              end
  | None => None
  end.

Definition create_command : option command_line :=
  command_of "CREATE SINGLE-NODE CLUSTER".

Definition create_one_liner : option command_line :=
  command_of "CREATE SINGLE-NODE CLUSTER ONE-LINER".

Definition flag_value (name : string) (c : command_line) : option (option string) :=
  option_map snd (find (fun f => String.eqb (fst f) name) (flags c)).

Definition without_flag (name : string) (c : command_line) : list (string * option string) :=
  filter (fun f => negb (String.eqb (fst f) name)) (flags c).

Definition option_string_eqb (a b : option string) : bool :=
  match a, b with
  | Some x, Some y => String.eqb x y
  | None, None => true
  | _, _ => false
  end.

Fixpoint strings_eqb (a b : list string) : bool :=
  match a, b with
  | [], [] => true
  | x :: a', y :: b' => String.eqb x y && strings_eqb a' b'
  | _, _ => false
  end.

Fixpoint flags_eqb (a b : list (string * option string)) : bool :=
  match a, b with
  | [], [] => true
  | (k, v) :: a', (k', v') :: b' =>
      String.eqb k k' && option_string_eqb v v' && flags_eqb a' b'
  | _, _ => false
  end.

(** The two commands are the same command: the same words before the flags
    and the same flags with the same values. *)
Definition same_command (a b : command_line) : bool :=
  strings_eqb (positional a) (positional b)
  && flags_eqb (flags a) (flags b)
  && strings_eqb (passthrough a) (passthrough b).

(** The flags on which two command lines differ, with both values. *)
Definition differing_flags (a b : command_line)
  : list (string * option string * option (option string)) :=
  flat_map (fun f => match flag_value (fst f) b with
                     | Some v => if option_string_eqb (snd f) v then []
                                 else [(fst f, snd f, Some v)]
                     | None => [(fst f, snd f, None)]
                     end) (flags a).

(** [f] on the create command and its one-liner. *)
Definition of_the_two_creates {A : Type} (f : command_line -> command_line -> A)
  : option A :=
  match create_command, create_one_liner with
  | Some a, Some b => Some (f a b)
  | _, _ => None
  end.

(** ** The explain plans against the glossary *)

Definition sort_merge_plan : option plan := read_plan (stdout JoinsNb.In16).
Definition broadcast_plan : option plan := read_plan (stdout JoinsNb.In17).

(** Sort-merge join: both datasets partitioned and sorted on the join key,
    exchanged across all nodes. *)
Definition sort_merge_as_glossary (p : plan) : bool :=
  String.eqb (fst (root p)) "SortMergeJoin" &&
  match inputs_of p, join_keys p with
  | [l; r], [kl; kr] =>
      partitioned_and_sorted_on kl l && partitioned_and_sorted_on kr r
  | _, _ => false
  end.

(** Broadcast join: one dataset replicated to all nodes, and no shuffle. *)
Definition broadcast_as_glossary (p : plan) : bool :=
  String.eqb (fst (root p)) "BroadcastHashJoin" &&
  (List.length (filter (fun i => is_broadcast (root i)) (inputs_of p)) =? 1) &&
  negb (existsb is_shuffle (nodes p)).

(** ** Columns in another order *)

(** The first [w] columns of a row moved behind the others. *)
Definition swap_columns {A : Type} (w : nat) (r : list A) : list A :=
  (skipn w r ++ firstn w r)%list.

(** ** Two lists of lines with the same lines *)

Fixpoint remove_first (x : string) (l : list string) : option (list string) :=
  match l with
  | [] => None
  | y :: l' =>
      if String.eqb x y then Some l'
      else option_map (cons y) (remove_first x l')
  end.

Fixpoint same_lines (a b : list string) : bool :=
  match a with
  | [] => match b with [] => true | _ => false end
  | x :: a' =>
      match remove_first x b with
      | Some b' => same_lines a' b'
      | None => false
      end
  end.

(** The join expression for graduateProgram on the left and person on the
    right: In [7], In [9] and In [10] pass the same expression as In [3]. *)
Definition joinExpression_flipped (g p : row) : bool := joinExpression p g.

Fixpoint distinct_lines (l : list string) : bool :=
  match l with
  | [] => true
  | x :: l' => negb (mem x l') && distinct_lines l'
  end.

(** A DataFrame of [n] rows of one column, for counting. *)
Definition range (n : nat) : DataFrame :=
  mkDataFrame ["id"] (map (fun i => [VInt i]) (seq 0 n)).

(** ** What a cell does besides calling methods

    The operators a cell applies, the subscripts it takes, the object each
    of its calls is made on, and what it imports. *)

Definition is_operator_char (c : ascii) : bool :=
  existsb (eqb_ascii_code c) [43; 45; 42; 47; 37; 60; 62; 38; 124; 94; 126; 64; 33].

Definition op_text (c : ascii) : string := String c EmptyString.

(** An operator between two operands, with the token on either side of it. *)
Record operation : Set := mkOperation {
  left_token : option token;
  operator : string;
  right_token : option token
}.

(** The operators of a token list: one of + - * / % < > & | ^ ~ @ !, alone
    or with = behind it, and ==.  A single = is an assignment or a keyword
    argument and no operator. *)
Fixpoint operations_in (prev : option token) (ts : list token) : list operation :=
  match ts with
  | [] => []
  | TOp a :: ts' =>
      match ts' with
      | TOp b :: rest =>
          if eqb_ascii_code b 61 && (eqb_ascii_code a 61 || is_operator_char a) then
            mkOperation prev (op_text a ++ op_text b) (hd_error rest)
            :: operations_in (Some (TOp b)) rest
          else if is_operator_char a then
            mkOperation prev (op_text a) (Some (TOp b))
            :: operations_in (Some (TOp a)) ts'
          else operations_in (Some (TOp a)) ts'
      | _ =>
          if is_operator_char a then
            mkOperation prev (op_text a) (hd_error ts')
            :: operations_in (Some (TOp a)) ts'
          else operations_in (Some (TOp a)) ts'
      end
  | t :: ts' => operations_in (Some t) ts'
  end.

Definition operations (c : cell) : list operation := operations_in None (tokens c).

Definition is_string_literal (t : option token) : bool :=
  match t with Some (TStr _) => true | _ => false end.

(** The operations that have a string literal of Python as an operand: they
    work on Python strings, not on objects of the engine. *)
Definition string_operations (c : cell) : list operation :=
  filter (fun o => is_string_literal (left_token o) || is_string_literal (right_token o))
         (operations c).

(** The subscripts [name[literal]] of a cell. *)
Fixpoint subscripts_in (ts : list token) : list (string * string) :=
  match ts with
  | [] => []
  | TName x :: ts' =>
      match ts' with
      | TOp b :: TStr s :: TOp e :: _ =>
          if eqb_ascii_code b 91 && eqb_ascii_code e 93 then (x, s) :: subscripts_in ts'
          else subscripts_in ts'
      | _ => subscripts_in ts'
      end
  | _ :: ts' => subscripts_in ts'
  end.

Definition subscripts (c : cell) : list (string * string) := subscripts_in (tokens c).

(** *** The object a call is made on

    For every call, the path that leads to it: the name the expression
    starts from, the attributes read and the calls made on the way (written
    [()] for the result of a call and [[]] for the item of a subscript), and
    the name that is called.  The scan keeps the path of the expression it is
    in, newest name first, and the paths left open at each bracket. *)

Definition result_mark : string := "()".
Definition item_mark : string := "[]".

Record path_state : Set := mkPathState {
  chain : list string;
  open_chains : list (list string);
  previous : option token
}.

Definition is_name (t : option token) : bool :=
  match t with Some (TName x) => negb (is_keyword x) | _ => false end.

Definition closes_primary (t : option token) : bool :=
  match t with
  | Some (TName x) => negb (is_keyword x)
  | Some (TOp c) => eqb_ascii_code c 41 || eqb_ascii_code c 93
  | _ => false
  end.

Definition path_step (st : path_state) (t : token) : path_state * list (list string) :=
  let st' := fun ch opened => mkPathState ch opened (Some t) in
  match t with
  | TName x =>
      if is_keyword x then (st' [] (open_chains st), [])
      else if after_dot (previous st) then (st' (x :: chain st) (open_chains st), [])
      else (st' [x] (open_chains st), [])
  | TOp c =>
      if eqb_ascii_code c 46 then (st' (chain st) (open_chains st), [])
      else if eqb_ascii_code c 40 then
        if is_name (previous st) then
          (st' [] (chain st :: open_chains st), [rev (chain st)])
        else (st' [] ([] :: open_chains st), [])
      else if eqb_ascii_code c 91 then
        if closes_primary (previous st) then (st' [] (chain st :: open_chains st), [])
        else (st' [] ([] :: open_chains st), [])
      else if eqb_ascii_code c 41 then
        match open_chains st with
        | saved :: rest => (st' (result_mark :: saved) rest, [])
        | [] => (st' [] [], [])
        end
      else if eqb_ascii_code c 93 then
        match open_chains st with
        | [] :: rest => (st' [] rest, [])
        | saved :: rest => (st' (item_mark :: saved) rest, [])
        | [] => (st' [] [], [])
        end
      else (st' [] (open_chains st), [])
  | TNewline =>
      match open_chains st with
      | [] => (st' [] [], [])
      | _ => (mkPathState (chain st) (open_chains st) (previous st), [])
      end
  | _ => (st' [] (open_chains st), [])
  end.

Fixpoint call_paths_in (st : path_state) (ts : list token) : list (list string) :=
  match ts with
  | [] => []
  | t :: ts' =>
      let (st', found) := path_step st t in
      (found ++ call_paths_in st' ts')%list
  end.

Definition call_paths (c : cell) : list (list string) :=
  call_paths_in (mkPathState [] [] None) (tokens c).

(** The calls made through an attribute that is not public: some name on
    their path starts with an underscore. *)
Definition calls_beside_the_api (c : cell) : list (list string) :=
  filter (existsb (prefix "_")) (call_paths c).


(** The imports of a cell: the module, name by name, and the names imported
    from it. *)
Definition import_of (stmt : list token) : list (list string * list string) :=
  let cl := roles stmt in
  match names_with ModulePath cl, names_with Imported cl with
  | [], [] => []
  | m, ns => [(m, ns)]
  end.

Definition imports (c : cell) : list (list string * list string) :=
  flat_map import_of (statements c).

(** A list of lists of names without its repetitions, in the order of first
    occurrence. *)
Fixpoint distinct_paths (seen : list (list string)) (ps : list (list string))
  : list (list string) :=
  match ps with
  | [] => []
  | p :: ps' =>
      if existsb (strings_eqb p) seen then distinct_paths seen ps'
      else p :: distinct_paths (p :: seen) ps'
  end.

(** The claim's second half for one cell: nothing but calls of methods of
    the engine's API.  It fails for an operation on Python strings and for a
    call made through an attribute that is not public. *)
Definition invokes_only_api_methods (c : cell) : bool :=
  match string_operations c, calls_beside_the_api c with
  | [], [] => true
  | _, _ => false
  end.

(** An operation without repetitions of the same one. *)
Definition token_eqb (a b : option token) : bool :=
  match a, b with
  | Some (TName x), Some (TName y) => String.eqb x y
  | Some (TNum x), Some (TNum y) => String.eqb x y
  | Some (TStr x), Some (TStr y) => String.eqb x y
  | Some (TOp x), Some (TOp y) => Ascii.eqb x y
  | Some TNewline, Some TNewline => true
  | None, None => true
  | _, _ => false
  end.

Definition operation_eqb (a b : operation) : bool :=
  token_eqb (left_token a) (left_token b)
  && String.eqb (operator a) (operator b)
  && token_eqb (right_token a) (right_token b).

Fixpoint distinct_operations (seen : list operation) (os : list operation)
  : list operation :=
  match os with
  | [] => []
  | o :: os' =>
      if existsb (operation_eqb o) seen then distinct_operations seen os'
      else o :: distinct_operations (o :: seen) os'
  end.

(** The bracket that closes a subscript, as a token. *)
Definition closing_bracket : option token := Some (TOp (ascii_of_nat 93)).

(** [a == b] between the subscript that ends before it and the name [b]. *)
Definition equality_with (b : string) : operation :=
  mkOperation closing_bracket "==" (Some (TName b)).

(** [a + b]. *)
Definition sum_of (a b : token) : operation := mkOperation (Some a) "+" (Some b).

(** ** More of the joins notebook: rows that can be compared and counted *)

Definition value_eq_dec (a b : value) : {a = b} + {a <> b}.
Proof.
  decide equality;
    [ apply Nat.eq_dec | apply string_dec | apply (list_eq_dec Nat.eq_dec) ].
Defined.

Definition row_eq_dec : forall a b : row, {a = b} + {a <> b} :=
  list_eq_dec value_eq_dec.

(** Every row of a DataFrame has a value for every column. *)
Definition rectangular (df : DataFrame) : Prop :=
  Forall (fun r => List.length r = List.length (columns df)) (rows df).


(** A text of printable ASCII characters: no line feed, no tabulator, and as
    many characters as the engine counts. *)
Definition printable (s : string) : bool :=
  forallb (fun c => (32 <=? nat_of_ascii c) && (nat_of_ascii c <? 127))
          (list_ascii_of_string s).

(** The DataFrames that [show()] prints whole and as [show] has it: at least
    one column, no more rows than the twenty that [show()] prints, and
    names and values of printable characters. *)
Definition shown_whole (df : DataFrame) : bool :=
  match columns df with [] => false | _ :: _ => true end
  && (count df <=? 20)
  && forallb printable (columns df)
  && forallb (forallb (fun v => printable (value_text v))) (rows df).

(** ** Duplicate column names (In [12] to In [15] of the joins notebook)

    The engine compares the names of columns without regard to case: In [17]
    of the Spark SQL notebook reads the column DEST_COUNTRY_NAME as
    dest_country_name.  Names are compared here as the engine compares names
    made of ASCII characters; a reference by name is read as one name when it
    is made of letters, digits and underscores. *)

Definition lower (c : ascii) : ascii :=
  let n := nat_of_ascii c in
  if (65 <=? n) && (n <=? 90) then ascii_of_nat (n + 32) else c.

Fixpoint lowercase (s : string) : string :=
  match s with
  | EmptyString => EmptyString
  | String c s' => String (lower c) (lowercase s')
  end.

Definition same_name (a b : string) : bool :=
  String.eqb (lowercase a) (lowercase b).

Definition is_ascii_text (s : string) : bool :=
  forallb (fun c => nat_of_ascii c <? 128) (list_ascii_of_string s).

(** A name that a reference reads as it stands: no dot, no backquote, no
    star, nothing but letters, digits and underscores. *)
Definition identifier (s : string) : bool :=
  negb (is_empty s)
  && forallb (fun c => is_letter c || is_digit c) (list_ascii_of_string s).

Definition plain_names (d : DataFrame) : bool := forallb is_ascii_text (columns d).

(** How many columns have the name. *)
Definition count_name (name : string) (cols : list string) : nat :=
  List.length (filter (fun c => same_name c name) cols).

(** [df.withColumnRenamed(existing, new)]: every column of the name gets the
    new one. *)
Definition withColumnRenamed (d : DataFrame) (existing new : string) : DataFrame :=
  mkDataFrame (map (fun c => if same_name c existing then new else c) (columns d))
              (rows d).

(** In [12]. *)
Definition gradProgramDupe : DataFrame :=
  withColumnRenamed graduateProgram "id" "graduate_program".

(** The places of the columns that satisfy [p], counted from [i]. *)
Fixpoint positions_where (p : string -> bool) (i : nat) (cols : list string)
  : list nat :=
  match cols with
  | [] => []
  | c :: cols' =>
      if p c then i :: positions_where p (S i) cols'
      else positions_where p (S i) cols'
  end.

Definition positions (name : string) (cols : list string) : list nat :=
  positions_where (fun c => same_name c name) 0 cols.

(** What a reference to a column by its name comes to: one column, none, or
    several to choose from.  The engine gives every candidate the name as
    the reference spells it, and the message of the error lists them so. *)
Inductive resolution : Set :=
| Resolved (i : nat)
| NotFound
| Ambiguous (candidates : list string).

Definition resolve (d : DataFrame) (name : string) : resolution :=
  match positions name (columns d) with
  | [] => NotFound
  | [i] => Resolved i
  | ps => Ambiguous (repeat name (List.length ps))
  end.

(** [d[name]]: the column of [d] of that name; there is none when the name
    is not found or is ambiguous (the engine raises). *)
Definition column_of (d : DataFrame) (name : string) : option nat :=
  match resolve d name with
  | Resolved i => Some i
  | _ => None
  end.

(** person["graduate_program"] == gradProgramDupe["graduate_program"]. *)
Definition dupeExpression (p g : row) : bool :=
  sql_eqb (col person "graduate_program" p)
          (col gradProgramDupe "graduate_program" g).

Definition df : DataFrame := join person gradProgramDupe dupeExpression inner.

(** The message of the error the notebook quotes for an ambiguous name. *)
Definition ambiguous_message (name : string) (candidates : list string) : string :=
  "Reference '" ++ name ++ "' is ambiguous, could be: "
  ++ String.concat ", " candidates ++ ".;".

Definition ambiguity_of (d : DataFrame) (name : string) : option string :=
  match resolve d name with
  | Ambiguous cs => Some (ambiguous_message name cs)
  | _ => None
  end.

(** A list without its element at [i]. *)
Definition without_column {A : Type} (i : nat) (l : list A) : list A :=
  (firstn i l ++ skipn (S i) l)%list.

(** The first column of the name, as a join on a name looks for it. *)
Fixpoint index_named (name : string) (cols : list string) : option nat :=
  match cols with
  | [] => None
  | c :: cols' =>
      if same_name c name then Some 0
      else option_map S (index_named name cols')
  end.

(** In [13]: [L.join(R, name)], the join on a column both sides have under
    the same name.  The key is the first column of that name on each side.
    The key comes first and once, as the left has it, then the other columns
    of the left, then the other columns of the right.  Without the column on
    either side there is no join (the engine raises). *)
Definition join_on_name (L R : DataFrame) (name : string) : option DataFrame :=
  match index_named name (columns L), index_named name (columns R) with
  | Some i, Some j =>
      Some (mkDataFrame
              (nth i (columns L) name
               :: without_column i (columns L) ++ without_column j (columns R))%list
              (flat_map
                 (fun l =>
                    map (fun r => (nth i l VNull :: without_column i l
                                   ++ without_column j r)%list)
                        (filter (fun r => sql_eqb (nth i l VNull) (nth j r VNull))
                                (rows R)))
                 (rows L)))
  | _, _ => None
  end.



(** In [15]. *)
Definition gradProgram3 : DataFrame :=
  withColumnRenamed graduateProgram "id" "grad_id".

(** person["graduate_program"] == gradProgram3["grad_id"]. *)
Definition gradIdExpression (p g : row) : bool :=
  sql_eqb (col person "graduate_program" p) (col gradProgram3 "grad_id" g).

(** The joins that put the columns of the two sides next to each other. *)
Definition two_sided (h : how) : bool :=
  match h with
  | inner | outer | left_outer | right_outer => true
  | left_semi | left_anti => false
  end.


(** The text of the cell that a markdown cell quotes as the error. *)
Definition quoted_error_line (name : string) (candidates : list string) : string :=
  "AnalysisException: " ++ dq ++ ambiguous_message name candidates.

(** The names of the columns of two DataFrames that are to be joined, as far
    as the comparison of names is modelled: ASCII names, and a reference
    that is one plain name. *)
Definition modelled_names (L R : DataFrame) (name : string) : bool :=
  identifier name && plain_names L && plain_names R.

(** ** The catalog the Spark SQL notebook works on

    The statements of the notebook that name a table or a view, read off its
    code cells, and their effect on the catalog: which relations exist after
    each of them and which of them finds a relation missing.  A relation is
    looked up by its name, and a name is taken to stand for one relation, a
    table or a view, as it does throughout the notebook. *)

Inductive relation_kind : Set := ManagedTable | TemporaryView | PermanentView.

Record relation : Set := mkRelation {
  relation_name : string;
  kind_of : relation_kind
}.

Definition catalog : Set := list relation.

Definition named (n : string) (r : relation) : bool :=
  String.eqb (relation_name r) n.

Definition lookup (n : string) (c : catalog) : option relation := find (named n) c.

Definition remove (n : string) (c : catalog) : catalog :=
  filter (fun r => negb (named n r)) c.

Definition is_table (r : relation) : bool :=
  match kind_of r with ManagedTable => true | _ => false end.

Definition is_temporary (r : relation) : bool :=
  match kind_of r with TemporaryView => true | _ => false end.

Inductive statement : Set :=
| RegisterTempView (name : string)
| CreateTable (if_not_exists : bool) (name : string) (from : list string)
| CreateView (name : string) (from : list string)
| DropView (if_exists : bool) (name : string)
| DropTable (if_exists : bool) (name : string)
| Explain (from : list string)
| Read (from : list string)
| Listing.

(** *** From the text of a cell to its statements *)

Definition is_blank (c : ascii) : bool :=
  eqb_ascii_code c 32 || eqb_ascii_code c 10 || eqb_ascii_code c 9.

Fixpoint split_blanks (cur : list ascii) (s : string) : list string :=
  match s with
  | EmptyString => [word cur]
  | String c s' =>
      if is_blank c then word cur :: split_blanks [] s'
      else split_blanks (c :: cur) s'
  end.

Definition sql_words (s : string) : list string :=
  filter (fun w => negb (is_empty w)) (split_blanks [] s).

(** [ws] without the words [ks] it starts with, when it starts with them. *)
Fixpoint after_words (ks ws : list string) : option (list string) :=
  match ks with
  | [] => Some ws
  | k :: ks' =>
      match ws with
      | w :: ws' => if String.eqb w k then after_words ks' ws' else None
      | [] => None
      end
  end.

(** The relations a query reads: the names that follow FROM. *)
Fixpoint names_after_from (ws : list string) : list string :=
  match ws with
  | [] => []
  | w :: ws' =>
      if String.eqb w "FROM" then
        match ws' with
        | n :: _ => n :: names_after_from ws'
        | [] => []
        end
      else names_after_from ws'
  end.

Definition named_first (ws : list string) (f : string -> list string -> statement)
  : option statement :=
  match ws with
  | n :: rest => Some (f n rest)
  | [] => None
  end.

Definition first_of (a b : option statement) : option statement :=
  match a with Some s => Some s | None => b end.

Definition on_words (ks : list string) (ws : list string)
  (f : string -> list string -> statement) : option statement :=
  match after_words ks ws with
  | Some rest => named_first rest f
  | None => None
  end.

(** The statement of a text of SQL; the longer form of a statement is tried
    before the shorter one. *)
Definition parse_sql (text : string) : option statement :=
  let ws := sql_words text in
  fold_right first_of None
    [ on_words ["CREATE"; "TABLE"; "IF"; "NOT"; "EXISTS"] ws
        (fun n rest => CreateTable true n (names_after_from rest));
      on_words ["CREATE"; "TABLE"] ws
        (fun n rest => CreateTable false n (names_after_from rest));
      on_words ["CREATE"; "VIEW"] ws
        (fun n rest => CreateView n (names_after_from rest));
      on_words ["DROP"; "VIEW"; "IF"; "EXISTS"] ws (fun n _ => DropView true n);
      on_words ["DROP"; "VIEW"] ws (fun n _ => DropView false n);
      on_words ["DROP"; "TABLE"; "IF"; "EXISTS"] ws (fun n _ => DropTable true n);
      on_words ["DROP"; "TABLE"] ws (fun n _ => DropTable false n);
      on_words ["CACHE"; "TABLE"] ws (fun n _ => Read [n]);
      on_words ["UNCACHE"; "TABLE"] ws (fun n _ => Read [n]);
      on_words ["DESCRIBE"; "TABLE"] ws (fun n _ => Read [n]);
      option_map (fun rest => Explain (names_after_from rest)) (after_words ["EXPLAIN"] ws);
      option_map (fun _ => Listing) (after_words ["SHOW"] ws);
      option_map (fun rest => Read (names_after_from rest)) (after_words ["SELECT"] ws) ].

Definition catalog_listings : list string := ["listTables"; "listDatabases"].

(** The statements of a cell, in the order of its text: the SQL handed to
    [sql], the views registered from a DataFrame, and the calls on the
    catalog.  SQL that is none of the statements above is [None]. *)
Fixpoint statements_in (ts : list token) : list (option statement) :=
  match ts with
  | [] => []
  | TName f :: ts' =>
      match ts' with
      | TOp _ :: TStr s :: _ =>
          if String.eqb f "sql" then parse_sql s :: statements_in ts'
          else if String.eqb f "createOrReplaceTempView" then
            Some (RegisterTempView s) :: statements_in ts'
          else if String.eqb f "listColumns" then Some (Read [s]) :: statements_in ts'
          else statements_in ts'
      | _ =>
          if mem f catalog_listings then Some Listing :: statements_in ts'
          else statements_in ts'
      end
  | _ :: ts' => statements_in ts'
  end.

Definition cell_statements (c : cell) : list (option statement) :=
  statements_in (tokens c).

(** *** What a statement does *)

Inductive failure : Set :=
| RelationNotFound (name : string)
| AlreadyExists (name : string)
| WrongKind (name : string).

(** A statement is done, or it raises, or, for EXPLAIN, the failure is what
    the statement reports as its plan. *)
Inductive outcome : Set :=
| Done
| Reported (f : failure)
| Raised (f : failure).

Definition not_found_message (n : string) : string :=
  "Table or view not found: " ++ n.

(** The first of the names that the catalog does not have. *)
Definition first_missing (c : catalog) (from : list string) : option string :=
  find (fun n => match lookup n c with Some _ => false | None => true end) from.

Definition exec (s : statement) (c : catalog) : catalog * outcome :=
  match s with
  | RegisterTempView n => (mkRelation n TemporaryView :: remove n c, Done)
  | CreateTable if_not_exists n from =>
      match lookup n c with
      | Some _ => (c, if if_not_exists then Done else Raised (AlreadyExists n))
      | None =>
          match first_missing c from with
          | Some m => (c, Raised (RelationNotFound m))
          | None => (mkRelation n ManagedTable :: c, Done)
          end
      end
  | CreateView n from =>
      match first_missing c from with
      | Some m => (c, Raised (RelationNotFound m))
      | None =>
          match lookup n c with
          | Some _ => (c, Raised (AlreadyExists n))
          | None => (mkRelation n PermanentView :: c, Done)
          end
      end
  | DropView if_exists n =>
      match lookup n c with
      | Some r => if is_table r then (c, Raised (WrongKind n)) else (remove n c, Done)
      | None => (c, if if_exists then Done else Raised (RelationNotFound n))
      end
  | DropTable if_exists n =>
      match lookup n c with
      | Some r => if is_table r then (remove n c, Done) else (c, Raised (WrongKind n))
      | None => (c, if if_exists then Done else Raised (RelationNotFound n))
      end
  | Explain from =>
      match first_missing c from with
      | Some m => (c, Reported (RelationNotFound m))
      | None => (c, Done)
      end
  | Read from =>
      match first_missing c from with
      | Some m => (c, Raised (RelationNotFound m))
      | None => (c, Done)
      end
  | Listing => (c, Done)
  end.

(** The statements one after the other, each on the catalog the one before
    it left; the outcomes in order, and the catalog at the end. *)
Fixpoint run (ss : list statement) (c : catalog) : list outcome * catalog :=
  match ss with
  | [] => ([], c)
  | s :: ss' =>
      let (c', o) := exec s c in
      let (os, c'') := run ss' c' in
      (o :: os, c'')
  end.

(** The statements of a notebook, when all of its SQL is understood. *)
Fixpoint all_some {A : Type} (l : list (option A)) : option (list A) :=
  match l with
  | [] => Some []
  | Some x :: l' => option_map (cons x) (all_some l')
  | None :: _ => None
  end.

Definition notebook_program (cells : list cell) : option (list statement) :=
  all_some (flat_map cell_statements (code_cells cells)).

(** The program of the cells up to and with In [n]. *)
Definition program_until (cells : list cell) (n : nat) : option (list statement) :=
  notebook_program (filter (fun c => number c <=? n) (code_cells cells)).

Definition kind_text (k : relation_kind) : string :=
  match k with
  | ManagedTable => "MANAGED"
  | TemporaryView => "TEMPORARY"
  | PermanentView => "VIEW"
  end.

(** What [Cat.listTables()] echoed, line by line: the name and the type of
    each table, the first and the last text between single quotes. *)
Definition listed (text : list string) : list (string * string) :=
  flat_map (fun l => match groups (ascii_of_nat 39) (ascii_of_nat 39) None l with
                     | n :: rest => [(n, last rest n)]
                     | [] => []
                     end) text.

Definition listing_of (c : catalog) : list (string * string) :=
  map (fun r => (relation_name r, kind_text (kind_of r))) c.

(** The rows of SHOW TABLES: the name and whether it is temporary. *)
Definition shown_tables (text : list string) : list (string * string) :=
  flat_map (fun r => match r with
                     | [_; n; t] => [(n, t)]
                     | _ => []
                     end) (tl (read_table text)).

Definition bool_text (b : bool) : string := if b then "true" else "false".

Definition show_tables_of (c : catalog) : list (string * string) :=
  map (fun r => (relation_name r, bool_text (is_temporary r))) c.

(** The statements of the Spark SQL notebook, as [notebook_program] reads
    them off its cells; an unreadable notebook has none. *)
Definition sql_program : list statement :=
  match notebook_program SparkSQL.cells with
  | Some p => p
  | None => []
  end.

(** The catalog when In [n] has run, from an empty catalog. *)
Definition catalog_after (n : nat) : catalog :=
  match program_until SparkSQL.cells n with
  | Some p => snd (run p [])
  | None => []
  end.

Definition raises (o : outcome) : bool :=
  match o with Raised _ => true | _ => false end.

Definition flights_view : relation := mkRelation "flights_view" TemporaryView.

(** The names a statement mentions. *)
Definition names_of (s : statement) : list string :=
  match s with
  | RegisterTempView n => [n]
  | CreateTable _ n from => n :: from
  | CreateView n from => n :: from
  | DropView _ n => [n]
  | DropTable _ n => [n]
  | Explain from => from
  | Read from => from
  | Listing => []
  end.

(** The catalog has none of the names. *)
Definition fresh_for (names : list string) (c : catalog) : Prop :=
  forall n, In n names -> lookup n c = None.

(** ** The commands of the cheat sheet, one against the other *)

Definition ssh_command : option command_line := command_of "SSH Tunnel".
Definition delete_command : option command_line := command_of "TERMINATE CLUSTER".

(** The word that follows [w] among the words before the flags. *)
Fixpoint word_after (w : string) (ws : list string) : option string :=
  match ws with
  | [] => None
  | x :: ws' =>
      if String.eqb x w then
        match ws' with
        | y :: _ => Some y
        | [] => None
        end
      else word_after w ws'
  end.

(** The value of a flag that has one. *)
Definition flag_text (name : string) (c : command_line) : option string :=
  match flag_value name c with
  | Some (Some v) => Some v
  | _ => None
  end.

(** The port forwarding an ssh command asks for, [-L local:host:remote]. *)
Record forwarding : Set := mkForwarding {
  local_port : string;
  remote_host : string;
  remote_port : string
}.

Definition forwarding_of (c : command_line) : option forwarding :=
  match passthrough c with
  | [opt; spec] =>
      if String.eqb opt "-L" then
        match split_on (ascii_of_nat 58) [] spec with
        | [a; h; b] => Some (mkForwarding a h b)
        | _ => None
        end
      else None
  | _ => None
  end.

(** The one line of the entry JUPYTER NOTEBOOK: the address to open. *)
Definition notebook_address : option string :=
  match entry_titled "JUPYTER NOTEBOOK" with
  | Some e => match body e with [a] => Some a | _ => None end
  | None => None
  end.

Definition through {A B : Type} (o : option A) (f : A -> option B) : option B :=
  match o with Some x => f x | None => None end.

(** * Properties *)

(** A conjunction is proved part by part; a fact about the notebooks as they
    stand is proved by evaluating the readers on their text. *)
Ltac conjuncts := repeat match goal with |- _ /\ _ => split end.
Ltac by_evaluation :=
  match goal with |- _ = _ => vm_compute; reflexivity end.

(** ** General facts about the definitions *)

Lemma forallb_Forall_true {A : Type} (p : A -> bool) (l : list A) :
  forallb p l = true -> Forall (fun x => p x = true) l.
Proof.
  induction l as [|x l IH]; simpl; intro H.
  - constructor.
  - apply andb_true_iff in H as [Hx Hl]. constructor; auto.
Qed.

Lemma existsb_false_Forall {A : Type} (p : A -> bool) (l : list A) :
  existsb p l = false -> Forall (fun x => p x = false) l.
Proof.
  induction l as [|x l IH]; simpl; intro H.
  - constructor.
  - apply orb_false_iff in H as [Hx Hl]. constructor; auto.
Qed.

(** A row of the cross join is a left row followed by a right row, and
    every such pair is there. *)
Lemma cross_rows_spec (L R : list row) (x : row) :
  In x (cross_rows L R) <-> exists l r, In l L /\ In r R /\ x = (l ++ r)%list.
Proof.
  unfold cross_rows. rewrite in_flat_map. split.
  - intros (l & Hl & Hx). apply in_map_iff in Hx as (r & <- & Hr).
    exists l, r. auto.
  - intros (l & r & Hl & Hr & ->). exists l. split; [assumption|].
    apply in_map_iff. exists r. auto.
Qed.

Lemma cross_rows_length (L R : list row) :
  List.length (cross_rows L R) = List.length L * List.length R.
Proof.
  unfold cross_rows. induction L as [|l L IH]; simpl.
  - reflexivity.
  - rewrite length_app, length_map. f_equal. exact IH.
Qed.

(** The inner join keeps exactly the pairs on which the join expression
    holds. *)
Lemma inner_rows_spec (on : row -> row -> bool) (L R : list row) (x : row) :
  In x (inner_rows on L R) <->
  exists l r, In l L /\ In r R /\ on l r = true /\ x = (l ++ r)%list.
Proof.
  unfold inner_rows. rewrite in_flat_map. split.
  - intros (l & Hl & Hx). apply in_map_iff in Hx as (r & <- & Hr).
    apply filter_In in Hr as [Hr Hon]. exists l, r. auto.
  - intros (l & r & Hl & Hr & Hon & ->). exists l. split; [assumption|].
    apply in_map_iff. exists r. split; [reflexivity|].
    apply filter_In. auto.
Qed.

(** A left row is kept by the semi join or by the anti join, never by
    both. *)
Lemma semi_or_anti (on : row -> row -> bool) (L R : list row) (l : row) :
  In l L ->
  (In l (left_semi_rows on L R) /\ ~ In l (left_anti_rows on L R))
  \/ (In l (left_anti_rows on L R) /\ ~ In l (left_semi_rows on L R)).
Proof.
  intro Hl. unfold left_semi_rows, left_anti_rows.
  destruct (existsb (on l) R) eqn:E.
  - left. split.
    + apply filter_In. auto.
    + intro H. apply filter_In in H as [_ H]. rewrite E in H. discriminate.
  - right. split.
    + apply filter_In. rewrite E. auto.
    + intro H. apply filter_In in H as [_ H]. congruence.
Qed.

Lemma swap_columns_app {A : Type} (a b : list A) :
  swap_columns (List.length a) (a ++ b)%list = (b ++ a)%list.
Proof.
  unfold swap_columns.
  rewrite skipn_app, firstn_app, Nat.sub_diag, skipn_all, firstn_all.
  simpl. rewrite app_nil_r. reflexivity.
Qed.

(** A right outer join is the left outer join with the two sides exchanged,
    up to the order of the columns. *)
Lemma right_outer_is_swapped_left_outer
  (on : row -> row -> bool) (w : nat) (padL : row) (L R : list row) :
  Forall (fun r => List.length r = w) R ->
  right_outer_rows on padL L R
  = map (swap_columns w) (left_outer_rows (fun r l => on l r) padL R L).
Proof.
  unfold right_outer_rows, left_outer_rows.
  induction 1 as [|r R Hr HR IH].
  - reflexivity.
  - cbn [flat_map]. rewrite map_app, IH. f_equal.
    destruct (filter (fun l => on l r) L) as [|m ms] eqn:E.
    + cbn [map]. rewrite <- Hr, swap_columns_app. reflexivity.
    + rewrite map_map. apply map_ext. intro l.
      rewrite <- Hr, swap_columns_app. reflexivity.
Qed.

Lemma remove_first_perm (x : string) (l l' : list string) :
  remove_first x l = Some l' -> Permutation l (x :: l').
Proof.
  revert l'. induction l as [|y l IH]; simpl; intros l' H.
  - discriminate.
  - destruct (String.eqb x y) eqn:E.
    + apply String.eqb_eq in E. injection H as <-. subst. reflexivity.
    + destruct (remove_first x l) as [t|]; simpl in H; [|discriminate].
      injection H as <-. rewrite (IH t eq_refl). apply perm_swap.
Qed.

Lemma same_lines_sound (a b : list string) :
  same_lines a b = true -> Permutation a b.
Proof.
  revert b. induction a as [|x a IH]; simpl; intros b H.
  - destruct b; [constructor | discriminate].
  - destruct (remove_first x b) as [b'|] eqn:E; [|discriminate].
    apply remove_first_perm in E. rewrite E. constructor. auto.
Qed.

(** Every code cell of the two notebooks lexes: no string literal is left
    open at the end of a cell. *)
Lemma code_cells_lex : Forall (fun c => lexes c = true) (code_cells all_cells).
Proof. apply forallb_Forall_true. by_evaluation. Qed.

(** The literal data and the printing of In [1] of the joins notebook: the
    literals of the cell are those of [person] and [graduateProgram], in
    the order of the source, and what the cell printed is [show] of the
    two. *)
Lemma first_cell_is_the_data :
  literals JoinsNb.In01 = (frame_literals person ++ frame_literals graduateProgram)%list
  /\ stdout JoinsNb.In01 = (show person ++ show graduateProgram)%list.
Proof. conjuncts; by_evaluation. Qed.

Lemma mem_In (x : string) (l : list string) : mem x l = true <-> In x l.
Proof.
  unfold mem. rewrite existsb_exists. split.
  - intros (y & Hy & E). apply String.eqb_eq in E. subst. assumption.
  - intro H. exists x. split; [assumption | apply String.eqb_refl].
Qed.

Lemma distinct_lines_sound (l : list string) :
  distinct_lines l = true -> NoDup l.
Proof.
  induction l as [|x l IH]; simpl; intro H.
  - constructor.
  - apply andb_true_iff in H as [Hx Hl]. constructor.
    + intro Hin. apply mem_In in Hin. rewrite Hin in Hx. discriminate.
    + auto.
Qed.

(** Every name a code cell reads is the session, a name an earlier statement
    bound, or a name imported from the engine's package, and every function
    called by its bare name is an imported one; the only package imported
    from is the engine's. *)
Lemma values_flow_from_the_session :
  flows initial_scope (notebook_statements SparkSQL.cells) = true
  /\ flows initial_scope (notebook_statements JoinsNb.cells) = true
  /\ Forall (fun c => subset (imports_from c) [engine_package] = true)
            (code_cells all_cells).
Proof.
  split; [|split].
  - by_evaluation.
  - by_evaluation.
  - apply forallb_Forall_true. by_evaluation.
Qed.

Lemma cheat_sheet_entries :
  map title entries
  = [ "CREATE SINGLE-NODE CLUSTER"; "CREATE SINGLE-NODE CLUSTER ONE-LINER";
      "SSH Tunnel"; "JUPYTER NOTEBOOK"; "TERMINATE CLUSTER" ]
  /\ map entry_lifecycle entries
     = [ Some CreateCluster; Some CreateCluster; Some OpenTunnel; None;
         Some DeleteCluster ].
Proof. conjuncts; by_evaluation. Qed.

(** ** C1: the shape of the cells *)

(** C1, as stated, fails: not every code cell calls a single library method
    and prints the result, and not every entry of the cheat sheet is a
    command.  In [3] of the Spark SQL notebook chains four calls (sql, where,
    where, count); In [2] makes four calls and prints nothing; In [7] only
    binds a name, with no call and no output; the entry JUPYTER NOTEBOOK of
    the cheat sheet is an address, not a command. *)
Lemma C1_not_every_cell_is_one_call_and_a_print :
  forallb single_call_and_prints (code_cells all_cells) = false
  /\ cell_numbered SparkSQL.cells 3 = Some SparkSQL.In03
  /\ map callee (work_calls SparkSQL.In03) = ["sql"; "where"; "where"; "count"]
  /\ chains_calls SparkSQL.In03 = true
  /\ cell_numbered SparkSQL.cells 2 = Some SparkSQL.In02
  /\ works_silently SparkSQL.In02 = true
  /\ cell_numbered SparkSQL.cells 7 = Some SparkSQL.In07
  /\ calls SparkSQL.In07 = []
  /\ prints SparkSQL.In07 = false
  /\ forallb pastes_lifecycle_command entries = false
  /\ option_map commands (entry_titled "JUPYTER NOTEBOOK") = Some [["localhost:8080"]].
Proof. conjuncts; by_evaluation. Qed.

(** C1, amended: of the 37 code cells, 27 call a single library method and
    print the result (Spark SQL In [1], [4]-[6], [8]-[20]; joins In [4]-[11],
    [13], [16]).  The other ten either make several calls, chained or in
    several statements (Spark SQL In [2], [3]; joins In [1], [2], [12], [14],
    [15], [17]), or make no call at all (Spark SQL In [7], joins In [3]);
    no cell makes more than four.  The cells that print nothing are Spark SQL
    In [2], [7] and joins In [2], [3].  Of the five entries of the cheat
    sheet four are one gcloud command each (create, create, tunnel, delete)
    and one is the address of the notebook server. *)
Theorem C1_shape_of_the_cells :
  List.length (code_cells all_cells) = 37
  /\ numbers (filter single_call_and_prints (code_cells SparkSQL.cells))
     = [1; 4; 5; 6; 8; 9; 10; 11; 12; 13; 14; 15; 16; 17; 18; 19; 20]
  /\ numbers (filter single_call_and_prints (code_cells JoinsNb.cells))
     = [4; 5; 6; 7; 8; 9; 10; 11; 13; 16]
  /\ numbers (filter chains_calls (code_cells SparkSQL.cells)) = [2; 3]
  /\ numbers (filter chains_calls (code_cells JoinsNb.cells)) = [1; 2; 12; 14; 15; 17]
  /\ numbers (filter (fun c => match calls c with [] => true | _ => false end)
                     (code_cells SparkSQL.cells)) = [7]
  /\ numbers (filter (fun c => match calls c with [] => true | _ => false end)
                     (code_cells JoinsNb.cells)) = [3]
  /\ Forall (fun c => (List.length (work_calls c) <=? 4) = true) (code_cells all_cells)
  /\ numbers (filter (fun c => negb (prints c)) (code_cells SparkSQL.cells)) = [2; 7]
  /\ numbers (filter (fun c => negb (prints c)) (code_cells JoinsNb.cells)) = [2; 3]
  /\ map entry_lifecycle entries
     = [ Some CreateCluster; Some CreateCluster; Some OpenTunnel; None;
         Some DeleteCluster ].
Proof.
  conjuncts; try by_evaluation.
  apply forallb_Forall_true. by_evaluation.
Qed.

(** ** C2: the errors on the page *)

(** C2, as stated, fails: two cells show an error, not one.  Besides the
    output of In [16] of the Spark SQL notebook, a markdown cell of the joins
    notebook quotes an AnalysisException for the ambiguous reference
    graduate_program. *)
Lemma C2_two_cells_show_an_error :
  List.length (filter shows_error all_cells) = 2
  /\ filter shows_error SparkSQL.cells = [SparkSQL.In16]
  /\ filter shows_error JoinsNb.cells = [JoinsNb.md13]
  /\ existsb (contains "AnalysisException") (source JoinsNb.md13) = true
  /\ existsb (contains "Reference 'graduate_program' is ambiguous")
             (source JoinsNb.md13) = true.
Proof. conjuncts; by_evaluation. Qed.

(** C2, amended: exactly one recorded output shows an error.  It is the
    output of In [16] of the Spark SQL notebook, an AnalysisException (table
    or view not found) for just_usa_view, which the cell's EXPLAIN query
    names and which only the later In [17] creates (In [18] drops it again,
    and no other cell names it).  One more error is on the page, quoted in a
    markdown cell of the joins notebook.  No code cell has a try, except,
    finally, raise or assert; what three cells of the Spark SQL notebook do
    have is a guard in their SQL, IF NOT EXISTS in In [4] and IF EXISTS in
    In [18] and In [20], which the engine evaluates. *)
Theorem C2_the_errors_on_the_page :
  filter error_in_output all_cells = [SparkSQL.In16]
  /\ existsb (contains "AnalysisException: Table or view not found: just_usa_view")
             (output_lines SparkSQL.In16) = true
  /\ runs_sql "EXPLAIN SELECT * FROM just_usa_view" SparkSQL.In16 = true
  /\ numbers (filter (runs_sql "CREATE VIEW just_usa_view") all_cells) = [17]
  /\ filter (runs_sql "CREATE VIEW just_usa_view") all_cells = [SparkSQL.In17]
  /\ numbers (filter (runs_sql "just_usa_view") all_cells) = [16; 17; 18]
  /\ filter shows_error all_cells = [SparkSQL.In16; JoinsNb.md13]
  /\ Forall (fun c => handles_errors c = false) (code_cells all_cells)
  /\ numbers (filter (fun c => runs_sql "IF EXISTS" c || runs_sql "IF NOT EXISTS" c)
                     SparkSQL.cells) = [4; 18; 20]
  /\ filter (fun c => runs_sql "IF EXISTS" c || runs_sql "IF NOT EXISTS" c)
            JoinsNb.cells = [].
Proof.
  conjuncts; try by_evaluation.
  apply existsb_false_Forall. by_evaluation.
Qed.

(** ** C3: the interfaces *)

(** C3, as stated, fails: In [2] of the Spark SQL notebook reads the
    attribute _jsc of the session, which is not public, and builds a gs://
    address from which it then reads. *)
Lemma C3_a_cell_goes_beside_the_public_api :
  forallb public_api_only (code_cells all_cells) = false
  /\ cell_numbered SparkSQL.cells 2 = Some SparkSQL.In02
  /\ public_api_only SparkSQL.In02 = false
  /\ private_attributes SparkSQL.In02 = ["_jsc"]
  /\ storage_urls SparkSQL.In02 = ["gs://"]
  /\ map callee (calls SparkSQL.In02)
     = ["hadoopConfiguration"; "get"; "json"; "createOrReplaceTempView"].
Proof. conjuncts; by_evaluation. Qed.

(** C3, amended: every code cell but In [2] of the Spark SQL notebook reads
    only attributes without a leading underscore and has no storage address
    in its literals; In [2] reads spark._jsc and a gs:// address.  No cell
    has a line for the shell, the only package imported from is the
    engine's, and every name read is the session or came from it.  The
    commands of the cheat sheet are gcloud commands in the order create,
    create, tunnel, delete (one more entry is the address of the notebook
    server), and the create commands leave the project and the bucket as
    placeholders. *)
Theorem C3_the_boundary_surfaces :
  filter (fun c => negb (public_api_only c)) (code_cells all_cells) = [SparkSQL.In02]
  /\ private_attributes SparkSQL.In02 = ["_jsc"]
  /\ storage_urls SparkSQL.In02 = ["gs://"]
  /\ Forall (fun c => shell_escapes c = []) (code_cells all_cells)
  /\ Forall (fun c => subset (imports_from c) [engine_package] = true)
            (code_cells all_cells)
  /\ flows initial_scope (notebook_statements SparkSQL.cells) = true
  /\ flows initial_scope (notebook_statements JoinsNb.cells) = true
  /\ map entry_lifecycle entries
     = [ Some CreateCluster; Some CreateCluster; Some OpenTunnel; None;
         Some DeleteCluster ]
  /\ option_map placeholders create_command = Some ["<PROJECT-ID>"; "<BUCKET-NAME>"]
  /\ option_map placeholders create_one_liner = Some ["<PROJECT-ID>"; "<BUCKET-NAME>"].
Proof.
  destruct values_flow_from_the_session as (Hsql & Hjoins & Himports).
  destruct cheat_sheet_entries as (_ & Hlife).
  conjuncts; try assumption; try by_evaluation.
  apply Forall_forall. intros c Hc.
  assert (H : forallb (fun c => match shell_escapes c with [] => true | _ => false end)
                      (code_cells all_cells) = true) by (vm_compute; reflexivity).
  rewrite forallb_forall in H. specialize (H c Hc).
  destruct (shell_escapes c); [reflexivity | discriminate].
Qed.

(** ** C5: nothing of the cells' own, and what the cells do *)

(** C5, as stated, fails: a code cell does more than invoke methods of the
    engine's API.  In [2] of the Spark SQL notebook puts Python strings
    together with + three times, to build the address it reads from, and it
    calls hadoopConfiguration() and get() through the attribute _jsc of the
    session, which is not public. *)
Lemma C5_a_cell_does_more_than_call_the_api :
  forallb invokes_only_api_methods (code_cells all_cells) = false
  /\ cell_numbered SparkSQL.cells 2 = Some SparkSQL.In02
  /\ invokes_only_api_methods SparkSQL.In02 = false
  /\ string_operations SparkSQL.In02
     = [ sum_of (TStr "gs://") (TName "bucket");
         sum_of (TName "bucket") (TStr "/notebooks/data/");
         sum_of (TName "data") (TStr "flight-data/json/2015-summary.json") ]
  /\ calls_beside_the_api SparkSQL.In02
     = [ ["spark"; "_jsc"; "hadoopConfiguration"];
         ["spark"; "_jsc"; "hadoopConfiguration"; "()"; "get"] ].
Proof. conjuncts; by_evaluation. Qed.

(** C5, amended.  No code cell of either notebook has a def, a class or a
    lambda, and none names a registration of a user-defined function; every
    code cell lexes, so that this covers all of its text.  Every name a cell
    reads is the session [spark], a name an earlier statement bound, or the
    one name the notebooks import, [broadcast] from pyspark.sql.functions.
    Every call is a call of [broadcast] or a method call, made on [spark], on
    [Cat], on one of the DataFrames person, graduateProgram and df, or on
    the result of such a call: the paths of all calls are the thirty listed.
    The only operators are, in the joins notebook, == between two
    DataFrames' columns taken by subscript, and, in In [2] of the Spark SQL
    notebook, the + of Python strings.  In [2] is the one cell that goes
    beside the engine's API: besides the three + it makes two calls through
    the attribute [_jsc]. *)
Theorem C5_what_the_cells_do :
  Forall (fun c => defines_its_own c = false) (code_cells all_cells)
  /\ Forall (fun c => lexes c = true) (code_cells all_cells)
  /\ flows initial_scope (notebook_statements SparkSQL.cells) = true
  /\ flows initial_scope (notebook_statements JoinsNb.cells) = true
  /\ flat_map imports (code_cells all_cells)
     = [(["pyspark"; "sql"; "functions"], ["broadcast"])]
  /\ flat_map (fun c => filter (fun k => negb (is_method k)) (calls c))
              (code_cells all_cells) = [Function "broadcast"]
  /\ distinct_paths [] (flat_map call_paths (code_cells all_cells))
     = [ ["spark"; "sql"];
         ["spark"; "sql"; "()"; "show"];
         ["spark"; "_jsc"; "hadoopConfiguration"];
         ["spark"; "_jsc"; "hadoopConfiguration"; "()"; "get"];
         ["spark"; "read"; "json"];
         ["spark"; "read"; "json"; "()"; "createOrReplaceTempView"];
         ["spark"; "sql"; "()"; "where"];
         ["spark"; "sql"; "()"; "where"; "()"; "where"];
         ["spark"; "sql"; "()"; "where"; "()"; "where"; "()"; "count"];
         ["Cat"; "listTables"];
         ["Cat"; "listDatabases"];
         ["Cat"; "listColumns"];
         ["spark"; "createDataFrame"];
         ["spark"; "createDataFrame"; "()"; "toDF"];
         ["person"; "show"];
         ["graduateProgram"; "show"];
         ["person"; "createOrReplaceTempView"];
         ["graduateProgram"; "createOrReplaceTempView"];
         ["person"; "join"];
         ["person"; "join"; "()"; "show"];
         ["graduateProgram"; "join"];
         ["graduateProgram"; "join"; "()"; "show"];
         ["person"; "crossJoin"];
         ["person"; "crossJoin"; "()"; "show"];
         ["graduateProgram"; "withColumnRenamed"];
         ["df"; "show"];
         ["person"; "join"; "()"; "drop"];
         ["person"; "join"; "()"; "drop"; "()"; "show"];
         ["person"; "join"; "()"; "explain"];
         ["broadcast"] ]
  /\ List.length (flat_map call_paths (code_cells all_cells))
     = List.length (flat_map calls (code_cells all_cells))
  /\ distinct_operations [] (flat_map operations (code_cells JoinsNb.cells))
     = [ equality_with "graduateProgram"; equality_with "gradProgramDupe";
         equality_with "gradProgram3" ]
  /\ distinct_paths []
       (map (fun s => [fst s; snd s]) (flat_map subscripts (code_cells all_cells)))
     = [ ["person"; "graduate_program"]; ["graduateProgram"; "id"];
         ["gradProgramDupe"; "graduate_program"]; ["gradProgram3"; "grad_id"] ]
  /\ flat_map operations (code_cells SparkSQL.cells)
     = [ sum_of (TStr "gs://") (TName "bucket");
         sum_of (TName "bucket") (TStr "/notebooks/data/");
         sum_of (TName "data") (TStr "flight-data/json/2015-summary.json") ]
  /\ filter (fun c => negb (invokes_only_api_methods c)) (code_cells all_cells)
     = [SparkSQL.In02]
  /\ flat_map calls_beside_the_api (code_cells all_cells)
     = [ ["spark"; "_jsc"; "hadoopConfiguration"];
         ["spark"; "_jsc"; "hadoopConfiguration"; "()"; "get"] ].
Proof.
  destruct values_flow_from_the_session as (Hsql & Hjoins & _).
  conjuncts; try assumption; try by_evaluation.
  - apply existsb_false_Forall. by_evaluation.
  - exact code_cells_lex.
Qed.


(** ** C4: the printed joins against the join types *)

(** C4: for the literal [person] and [graduateProgram] of In [1], every join
    the notebook prints is the join of its type on the key equality
    person.graduate_program = graduateProgram.id, as [show] prints it.  The
    inner join (In [4], In [5]) has the 3 matching rows; the full outer join
    (In [6]) has those 3 and one more, the program with id 2 behind four
    nulls; the left semi join of graduateProgram (In [9]) has the programs 0
    and 1; the left anti join (In [10]) has the program 2; the cross join
    (In [11]) has the heading and, in another order, the lines of all 9
    pairs, no line twice. *)
Theorem C4_printed_joins_are_the_join_types :
  stdout JoinsNb.In04 = show (join person graduateProgram joinExpression inner)
  /\ stdout JoinsNb.In05 = show (join person graduateProgram joinExpression inner)
  /\ count (join person graduateProgram joinExpression inner) = 3
  /\ stdout JoinsNb.In06 = show (join person graduateProgram joinExpression outer)
  /\ rows (join person graduateProgram joinExpression outer)
     = (rows (join person graduateProgram joinExpression inner)
        ++ [[VNull; VNull; VNull; VNull;
             VInt 2; VStr "Masters"; VStr "EECS"; VStr "UC Berkeley"]])%list
  /\ stdout JoinsNb.In09
     = show (join graduateProgram person joinExpression_flipped left_semi)
  /\ map (col graduateProgram "id")
         (rows (join graduateProgram person joinExpression_flipped left_semi))
     = [VInt 0; VInt 1]
  /\ stdout JoinsNb.In10
     = show (join graduateProgram person joinExpression_flipped left_anti)
  /\ map (col graduateProgram "id")
         (rows (join graduateProgram person joinExpression_flipped left_anti))
     = [VInt 2]
  /\ firstn 3 (stdout JoinsNb.In11) = show_head (crossJoin person graduateProgram)
  /\ Permutation (printed_rows (stdout JoinsNb.In11))
                 (show_rows (crossJoin person graduateProgram))
  /\ NoDup (printed_rows (stdout JoinsNb.In11))
  /\ List.length (printed_rows (stdout JoinsNb.In11)) = 9.
Proof.
  conjuncts; try by_evaluation.
  - apply same_lines_sound. by_evaluation.
  - apply distinct_lines_sound. by_evaluation.
Qed.

(** ** C6: the cells ran in order *)

(** C6: read in the order of the document, the execution counts of the code
    cells are 1, 2, ..., 20 in the Spark SQL notebook and 1, 2, ..., 17 in the
    joins notebook; an echoed value carries the count of its cell. *)
Theorem C6_cells_ran_in_document_order :
  execution_counts SparkSQL.cells = map Some (seq 1 20)
  /\ execution_counts JoinsNb.cells = map Some (seq 1 17)
  /\ Forall (fun c => forallb (fun o => match o with
                                        | execute_result n _ => n =? number c
                                        | stream _ _ => true
                                        end) (outputs c) = true)
            (code_cells all_cells).
Proof.
  conjuncts; try by_evaluation.
  apply forallb_Forall_true. by_evaluation.
Qed.

(** ** C7: the plans against the glossary *)

(** C7: the plan In [16] printed is a SortMergeJoin on the keys
    graduate_program and id with two inputs, each a Sort on its key over an
    Exchange that hash-partitions on the same key; the plan In [17] printed
    is a BroadcastHashJoin whose right input, and only that one, is a
    BroadcastExchange, and it has no hash-partitioning Exchange and no Sort
    anywhere. *)
Theorem C7_plans_follow_the_glossary :
  option_map sort_merge_as_glossary sort_merge_plan = Some true
  /\ option_map join_keys sort_merge_plan = Some ["graduate_program#10L"; "id#24L"]
  /\ option_map (fun p => map operators (inputs_of p)) sort_merge_plan
     = Some [ ["Sort"; "Exchange"; "Project"; "Filter"; "Scan"];
              ["Sort"; "Exchange"; "Project"; "Filter"; "Scan"] ]
  /\ option_map (fun p => map snd (filter is_shuffle (nodes p))) sort_merge_plan
     = Some [ "hashpartitioning(graduate_program#10L, 200)";
              "hashpartitioning(id#24L, 200)" ]
  /\ option_map broadcast_as_glossary broadcast_plan = Some true
  /\ option_map (fun p => map operators (inputs_of p)) broadcast_plan
     = Some [ ["Project"; "Filter"; "Scan"];
              ["BroadcastExchange"; "Project"; "Filter"; "Scan"] ]
  /\ option_map (fun p => filter is_shuffle (nodes p)) broadcast_plan = Some []
  /\ option_map (fun p => mem "Sort" (operators p)) broadcast_plan = Some false.
Proof. conjuncts; by_evaluation. Qed.

(** ** C8: right outer and left outer *)

(** C8: the table In [8] printed (person right outer graduateProgram) is the
    table In [7] printed (graduateProgram left outer person) with the first
    four columns moved behind the last four, heading and rows alike, and the
    other way round.  Both are the joins of their types: the printed rows
    are, in another order, those of [show]; and the rows of the right outer
    join are those of the left outer join with the columns exchanged. *)
Theorem C8_right_outer_is_left_outer_with_columns_exchanged :
  map (swap_columns 4) (read_table (stdout JoinsNb.In07)) = read_table (stdout JoinsNb.In08)
  /\ map (swap_columns 4) (read_table (stdout JoinsNb.In08)) = read_table (stdout JoinsNb.In07)
  /\ List.length (read_table (stdout JoinsNb.In07)) = 5
  /\ firstn 3 (stdout JoinsNb.In07)
     = show_head (join graduateProgram person joinExpression_flipped left_outer)
  /\ Permutation (printed_rows (stdout JoinsNb.In07))
       (show_rows (join graduateProgram person joinExpression_flipped left_outer))
  /\ firstn 3 (stdout JoinsNb.In08)
     = show_head (join person graduateProgram joinExpression right_outer)
  /\ Permutation (printed_rows (stdout JoinsNb.In08))
       (show_rows (join person graduateProgram joinExpression right_outer))
  /\ rows (join person graduateProgram joinExpression right_outer)
     = map (swap_columns 4)
           (rows (join graduateProgram person joinExpression_flipped left_outer)).
Proof.
  conjuncts.
  8: { apply (right_outer_is_swapped_left_outer joinExpression 4).
       repeat constructor. }
  all: try by_evaluation.
  all: apply same_lines_sound; by_evaluation.
Qed.

(** ** C9: the two create commands *)

(** C9: the claim is that the one-liner is the create command on one line.
    Read as command lines the two have the same words before the flags and
    the same ten flags in the same order, and they agree on the value of
    every flag but one: --image-version is 1.3 in the command of several
    lines and 1.4 in the one-liner.  So the two are not the same command. *)
Theorem C9_one_liner_differs_in_image_version :
  option_map positional create_command = option_map positional create_one_liner
  /\ option_map (fun c => map fst (flags c)) create_command
     = option_map (fun c => map fst (flags c)) create_one_liner
  /\ option_map (fun c => List.length (flags c)) create_command = Some 10
  /\ option_map (without_flag "--image-version") create_command
     = option_map (without_flag "--image-version") create_one_liner
  /\ option_map (flag_value "--image-version") create_command = Some (Some (Some "1.3"))
  /\ option_map (flag_value "--image-version") create_one_liner = Some (Some (Some "1.4"))
  /\ of_the_two_creates same_command = Some false
  /\ of_the_two_creates differing_flags
     = Some [("--image-version", Some "1.3", Some (Some "1.4"))].
Proof. conjuncts; by_evaluation. Qed.

(** ** C10: the size of a cross join *)

(** C10: the cross join of A and B has as many rows as A has times as B
    has; two inputs of 1,000 rows give 1,000 x 1,000; and the cross join
    In [11] printed has 9 rows, for 3 rows of person and 3 of
    graduateProgram. *)
Theorem C10_cross_join_has_the_product_of_the_rows :
  (forall A B : DataFrame, count (crossJoin A B) = count A * count B)
  /\ (forall A B : DataFrame,
        count A = 1000 -> count B = 1000 ->
        count (crossJoin A B) = 1000 * 1000)
  /\ count person = 3
  /\ count graduateProgram = 3
  /\ count (crossJoin person graduateProgram) = 9
  /\ List.length (printed_rows (stdout JoinsNb.In11)) = 9.
Proof.
  assert (H : forall A B : DataFrame, count (crossJoin A B) = count A * count B).
  { intros A B. unfold count, crossJoin. cbn [rows]. apply cross_rows_length. }
  conjuncts; try by_evaluation.
  - exact H.
  - intros A B HA HB. rewrite H, HA, HB. reflexivity.
Qed.

(** Two inputs of 1,000 rows each. *)
Lemma C10_thousand_by_thousand :
  count (crossJoin (range 1000) (range 1000)) = 1000 * 1000.
Proof.
  apply (proj1 (proj2 C10_cross_join_has_the_product_of_the_rows));
    unfold count, range; cbn [rows]; rewrite length_map, length_seq; reflexivity.
Defined.

(** * More properties of the notebooks *)

(** ** The join types as the joins notebook describes them *)

Lemma filter_true {A : Type} (l : list A) : filter (fun _ => true) l = l.
Proof. induction l as [|x l IH]; simpl; [reflexivity | now rewrite IH]. Qed.

Lemma filter_shorter {A : Type} (p : A -> bool) (l : list A) :
  List.length (filter p l) <= List.length l.
Proof.
  induction l as [|x l IH]; simpl; [lia|].
  destruct (p x); simpl; lia.
Qed.

Lemma filter_split_perm {A : Type} (p : A -> bool) (l : list A) :
  Permutation l (filter p l ++ filter (fun x => negb (p x)) l).
Proof.
  induction l as [|x l IH]; simpl.
  - constructor.
  - destruct (p x); simpl.
    + constructor. exact IH.
    + apply Permutation_cons_app. exact IH.
Qed.

Lemma count_occ_filter_kept {A : Type} (dec : forall a b : A, {a = b} + {a <> b})
  (p : A -> bool) (l : list A) (x : A) :
  p x = true -> count_occ dec (filter p l) x = count_occ dec l x.
Proof.
  intro Hx. induction l as [|y l IH]; simpl; [reflexivity|].
  destruct (dec y x) as [->|Hne].
  - rewrite Hx. simpl. destruct (dec x x); [now rewrite IH | contradiction].
  - destruct (p y); simpl; [|exact IH].
    destruct (dec y x); [contradiction | exact IH].
Qed.

(** X1.  Right outer joins are exactly the same as left outer joins if we
    replaced the order of left and right tables; it results in a different
    ordering of the columns.  For every left and right DataFrame and every
    join expression, provided each right row has a value for every right
    column: the rows and the heading of [L.join(R, on, right_outer)] are
    those of [R.join(L, on, left_outer)] with the columns of R moved behind
    those of L. *)
Theorem right_outer_join_is_left_outer_join_exchanged
  (L R : DataFrame) (on : row -> row -> bool) :
  rectangular R ->
  rows (join L R on right_outer)
  = map (swap_columns (List.length (columns R)))
        (rows (join R L (fun r l => on l r) left_outer))
  /\ columns (join L R on right_outer)
     = swap_columns (List.length (columns R))
                    (columns (join R L (fun r l => on l r) left_outer)).
Proof.
  intro HR. split.
  - cbn [join rows]. apply right_outer_is_swapped_left_outer. exact HR.
  - cbn [join columns]. rewrite swap_columns_app. reflexivity.
Qed.

Lemma right_outer_join_exchanged_for_the_notebook :
  rows (join person graduateProgram joinExpression right_outer)
  = map (swap_columns (List.length (columns graduateProgram)))
        (rows (join graduateProgram person (fun r l => joinExpression l r) left_outer))
  /\ columns (join person graduateProgram joinExpression right_outer)
     = swap_columns (List.length (columns graduateProgram))
                    (columns (join graduateProgram person
                                   (fun r l => joinExpression l r) left_outer)).
Proof.
  apply (right_outer_join_is_left_outer_join_exchanged person graduateProgram joinExpression).
  repeat constructor.
Defined.

(** X2.  A left semi join is a filter on the left DataFrame: it has the columns
    of the left and no value of the right; a row is in it exactly when it is
    a left row for which some right row satisfies the join expression; and
    such a row is in it as many times as it is in the left, duplicates
    included. *)
Theorem left_semi_join_is_a_filter_of_the_left
  (L R : DataFrame) (on : row -> row -> bool) :
  columns (join L R on left_semi) = columns L
  /\ (forall l, In l (rows (join L R on left_semi)) <->
                In l (rows L) /\ exists r, In r (rows R) /\ on l r = true)
  /\ (forall l r, In r (rows R) -> on l r = true ->
        count_occ row_eq_dec (rows (join L R on left_semi)) l
        = count_occ row_eq_dec (rows L) l).
Proof.
  cbn [join rows columns]. unfold left_semi_rows. split; [reflexivity|]. split.
  - intro l. rewrite filter_In, existsb_exists. reflexivity.
  - intros l r Hr Hon. apply count_occ_filter_kept.
    apply existsb_exists. exists r. auto.
Qed.

(** X3.  Left anti joins are the opposite of left semi joins: the anti join keeps
    the left rows for which no right row satisfies the join expression.
    Each left row goes to one of the two joins and to one only, so the two
    have the rows of the left between them and their counts add up to the
    count of the left. *)
Theorem left_anti_join_is_the_rest_of_the_left
  (L R : DataFrame) (on : row -> row -> bool) :
  Permutation (rows L)
              (rows (join L R on left_semi) ++ rows (join L R on left_anti))
  /\ count (join L R on left_semi) + count (join L R on left_anti) = count L
  /\ (forall l, In l (rows (join L R on left_anti)) <->
                In l (rows L) /\ forall r, In r (rows R) -> on l r = false)
  /\ (forall l, In l (rows (join L R on left_semi)) ->
                In l (rows (join L R on left_anti)) -> False).
Proof.
  unfold count. cbn [join rows]. unfold left_semi_rows, left_anti_rows.
  assert (P := filter_split_perm (fun l => existsb (on l) (rows R)) (rows L)).
  split; [exact P|]. split; [|split].
  - apply Permutation_length in P. rewrite length_app in P. symmetry. exact P.
  - intro l. rewrite filter_In, negb_true_iff. split.
    + intros [Hl He]. split; [assumption|]. intros r Hr.
      destruct (on l r) eqn:E; [|reflexivity].
      assert (existsb (on l) (rows R) = true) as Ht
        by (apply existsb_exists; exists r; auto).
      congruence.
    + intros [Hl Hall]. split; [assumption|].
      destruct (existsb (on l) (rows R)) eqn:E; [|reflexivity].
      apply existsb_exists in E as (r & Hr & Hon).
      rewrite (Hall r Hr) in Hon. discriminate.
  - intros l Hs Ha. apply filter_In in Hs as [_ Hs]. apply filter_In in Ha as [_ Ha].
    rewrite Hs in Ha. discriminate.
Qed.

(** X4.  Cross joins are inner joins that do not specify a predicate: the cross
    join is the inner join on the expression that always holds; and the
    inner join on any expression has only rows of the cross join, so never
    more rows than the product of the two counts. *)
Theorem cross_join_is_the_inner_join_without_a_predicate (L R : DataFrame) :
  crossJoin L R = join L R (fun _ _ => true) inner
  /\ (forall on, incl (rows (join L R on inner)) (rows (crossJoin L R)))
  /\ (forall on, count (join L R on inner) <= count L * count R).
Proof.
  split; [|split].
  - unfold crossJoin. cbn [join]. f_equal.
    unfold cross_rows, inner_rows. apply flat_map_ext. intro l.
    rewrite filter_true. reflexivity.
  - intros on x Hx. cbn [join crossJoin rows] in *.
    apply inner_rows_spec in Hx as (l & r & Hl & Hr & _ & ->).
    apply cross_rows_spec. exists l, r. auto.
  - intro on. unfold count. cbn [join rows]. unfold inner_rows.
    induction (rows L) as [|l Ls IH]; cbn [flat_map List.length Nat.mul]; [lia|].
    rewrite length_app, length_map.
    pose proof (filter_shorter (on l) (rows R)) as H.
    apply Nat.add_le_mono; assumption.
Qed.

Lemma matched_pair_in_left_outer
  (on : row -> row -> bool) (pad : row) (L R : list row) (l r : row) :
  In l L -> In r R -> on l r = true ->
  In (l ++ r)%list (left_outer_rows on pad L R).
Proof.
  intros Hl Hr Hon. unfold left_outer_rows. apply in_flat_map.
  exists l. split; [assumption|].
  assert (Hf : In r (filter (on l) R)) by (apply filter_In; auto).
  destruct (filter (on l) R) as [|m ms]; [contradiction|].
  apply in_map_iff. exists r. auto.
Qed.

(** X5.  Outer joins keep the rows that have no partner and insert null.  For
    every left and right DataFrame and every join expression: each left row
    is the left part of some row of the left outer join, followed by nulls
    when no right row satisfies the expression with it, so the left outer
    join has at least as many rows as the left; the inner join is part of
    the left outer join and that is part of the full outer join; and each
    right row is the right part of some row of the full outer join. *)
Theorem outer_joins_keep_the_rows_without_a_partner
  (L R : DataFrame) (on : row -> row -> bool) :
  (forall l, In l (rows L) ->
     exists r, In (l ++ r)%list (rows (join L R on left_outer)))
  /\ (forall l, In l (rows L) ->
        (forall r, In r (rows R) -> on l r = false) ->
        In (l ++ nulls R)%list (rows (join L R on left_outer)))
  /\ count L <= count (join L R on left_outer)
  /\ incl (rows (join L R on inner)) (rows (join L R on left_outer))
  /\ incl (rows (join L R on left_outer)) (rows (join L R on outer))
  /\ (forall r, In r (rows R) ->
        exists l, In (l ++ r)%list (rows (join L R on outer))).
Proof.
  unfold count. cbn [join rows].
  split; [|split; [|split; [|split; [|split]]]].
  - intros l Hl. unfold left_outer_rows.
    destruct (filter (on l) (rows R)) as [|m ms] eqn:E.
    + exists (nulls R). apply in_flat_map. exists l. split; [assumption|].
      rewrite E. left. reflexivity.
    + exists m. apply in_flat_map. exists l. split; [assumption|].
      rewrite E. left. reflexivity.
  - intros l Hl Hnone. unfold left_outer_rows. apply in_flat_map.
    exists l. split; [assumption|].
    destruct (filter (on l) (rows R)) as [|m ms] eqn:E.
    + left. reflexivity.
    + assert (Hm : In m (filter (on l) (rows R))) by (rewrite E; left; reflexivity).
      apply filter_In in Hm as [Hm Hon]. rewrite (Hnone m Hm) in Hon. discriminate.
  - unfold left_outer_rows. induction (rows L) as [|l Ls IH]; cbn [flat_map List.length].
    + lia.
    + rewrite length_app.
      apply (Nat.add_le_mono 1 _ _ _); [|exact IH].
      destruct (filter (on l) (rows R)); cbn [List.length map]; lia.
  - intros x Hx. apply inner_rows_spec in Hx as (l & r & Hl & Hr & Hon & ->).
    apply matched_pair_in_left_outer; assumption.
  - intros x Hx. unfold full_outer_rows. apply in_or_app. left. exact Hx.
  - intros r Hr. unfold full_outer_rows.
    destruct (existsb (fun l => on l r) (rows L)) eqn:E.
    + apply existsb_exists in E as (l & Hl & Hon). exists l.
      apply in_or_app. left. apply matched_pair_in_left_outer; assumption.
    + exists (nulls L). apply in_or_app. right.
      apply in_map_iff. exists r. split; [reflexivity|].
      apply filter_In. rewrite E. auto.
Qed.

(** ** Duplicate column names *)

Section Places.

Variable p : string -> bool.

Lemma positions_from (i : nat) (l : list string) (q : nat) :
  In q (positions_where p i l) -> i <= q < i + List.length l.
Proof.
  revert i. induction l as [|c l IH]; simpl; intros i H; [contradiction|].
  destruct (p c).
  - destruct H as [<-|H]; [lia|]. apply IH in H. lia.
  - apply IH in H. lia.
Qed.


Lemma positions_length (i : nat) (l : list string) :
  List.length (positions_where p i l) = List.length (filter p l).
Proof.
  revert i. induction l as [|c l IH]; simpl; intro i; [reflexivity|].
  destruct (p c); simpl; now rewrite IH.
Qed.

(** At the places stand the columns that satisfy [p], in their order. *)
Lemma positions_hold (d : string) (i : nat) (l : list string) :
  map (fun q => nth (q - i) l d) (positions_where p i l) = filter p l.
Proof.
  revert i. induction l as [|c l IH]; simpl; intro i; [reflexivity|].
  assert (Hrest : map (fun q => nth (q - i) (c :: l) d) (positions_where p (S i) l)
                  = filter p l).
  { rewrite <- (IH (S i)). apply map_ext_in. intros q Hq.
    apply positions_from in Hq.
    replace (q - i) with (S (q - S i)) by lia. reflexivity. }
  destruct (p c).
  - simpl. rewrite Nat.sub_diag. f_equal. exact Hrest.
  - exact Hrest.
Qed.

End Places.

Lemma positions_of_name (d : DataFrame) (k : string) :
  map (fun q => nth q (columns d) k) (positions k (columns d))
  = filter (fun c => same_name c k) (columns d).
Proof.
  unfold positions.
  rewrite <- (positions_hold (fun c => same_name c k) k 0).
  apply map_ext. intro q. rewrite Nat.sub_0_r. reflexivity.
Qed.

Lemma resolve_once (d : DataFrame) (k : string) :
  count_name k (columns d) = 1 ->
  exists i, resolve d k = Resolved i
            /\ i < List.length (columns d)
            /\ same_name (nth i (columns d) k) k = true.
Proof.
  intro H. unfold resolve.
  pose proof (positions_of_name d k) as Hn.
  pose proof (positions_from (fun c => same_name c k) 0 (columns d)) as Hb.
  unfold count_name in H.
  rewrite <- (positions_length (fun c => same_name c k) 0) in H.
  fold (positions k (columns d)) in H, Hb.
  destruct (positions k (columns d)) as [|i [|j ps]]; try discriminate.
  exists i. split; [reflexivity|]. split.
  - specialize (Hb i (or_introl eq_refl)). lia.
  - simpl in Hn.
    assert (Hin : In (nth i (columns d) k)
                     (filter (fun c => same_name c k) (columns d)))
      by (rewrite <- Hn; left; reflexivity).
    apply filter_In in Hin. apply Hin.
Qed.

Lemma resolve_several (d : DataFrame) (k : string) :
  2 <= count_name k (columns d) ->
  resolve d k = Ambiguous (repeat k (count_name k (columns d))).
Proof.
  intro H. unfold resolve. unfold count_name in *.
  rewrite <- (positions_length (fun c => same_name c k) 0) in *.
  fold (positions k (columns d)) in *.
  destruct (positions k (columns d)) as [|i [|j ps]]; simpl in H; try lia.
  reflexivity.
Qed.

Lemma two_sided_columns (L R : DataFrame) (on : row -> row -> bool) (h : how) :
  two_sided h = true -> columns (join L R on h) = (columns L ++ columns R)%list.
Proof. destruct h; simpl; intro H; try discriminate; reflexivity. Qed.

Lemma count_name_app (k : string) (a b : list string) :
  count_name k (a ++ b) = count_name k a + count_name k b.
Proof. unfold count_name. rewrite filter_app, length_app. reflexivity. Qed.

(** X6.  Handling duplicate column names: when the join expression is a
    Boolean expression and the two sides both have a column of the name, the
    join has the name more than once and a reference to it is ambiguous.
    For DataFrames with ASCII column names and a reference that is one plain
    name (the hypothesis [modelled_names]: there the comparison of names is
    the engine's, without regard to case), and every join that puts the
    columns of the two sides side by side: the reference is ambiguous
    between two candidates or more, each under the name as the reference
    spells it, and so the join has no column of that name to refer to. *)
Theorem join_on_an_expression_leaves_the_name_ambiguous
  (L R : DataFrame) (on : row -> row -> bool) (h : how) (k : string) :
  modelled_names L R k = true ->
  1 <= count_name k (columns L) -> 1 <= count_name k (columns R) ->
  two_sided h = true ->
  exists n,
    2 <= n
    /\ resolve (join L R on h) k = Ambiguous (repeat k n)
    /\ column_of (join L R on h) k = None.
Proof.
  intros _ HL HR Hh.
  assert (H2 : 2 <= count_name k (columns (join L R on h))).
  { rewrite (two_sided_columns L R on h Hh), count_name_app. lia. }
  pose proof (resolve_several _ _ H2) as Hr.
  exists (count_name k (columns (join L R on h))).
  split; [exact H2|]. split; [exact Hr|].
  unfold column_of. rewrite Hr. reflexivity.
Qed.

(** The notebook's case: [df] of In [12] and the error quoted below it. *)
Lemma the_quoted_ambiguity :
  (existsb (String.eqb (quoted_error_line "graduate_program"
                          ["graduate_program"; "graduate_program"]))
           (source JoinsNb.md13) = true
   /\ ambiguity_of df "graduate_program"
      = Some (ambiguous_message "graduate_program"
                ["graduate_program"; "graduate_program"])
   /\ stdout JoinsNb.In12 = show df)
  /\ exists n,
       2 <= n
       /\ resolve df "graduate_program" = Ambiguous (repeat "graduate_program" n)
       /\ column_of df "graduate_program" = None.
Proof.
  split; [conjuncts; vm_compute; reflexivity|].
  apply (join_on_an_expression_leaves_the_name_ambiguous
           person gradProgramDupe dupeExpression inner "graduate_program").
  - reflexivity.
  - vm_compute. lia.
  - vm_compute. lia.
  - reflexivity.
Defined.

Lemma index_named_none (k : string) (l : list string) :
  count_name k l = 0 -> index_named k l = None.
Proof.
  unfold count_name. induction l as [|c l IH]; simpl; intro H; [reflexivity|].
  destruct (same_name c k); [discriminate|]. rewrite IH; [reflexivity | exact H].
Qed.

(** The first column of the name: where it is, that it has the name, and
    that taking it away takes one column of the name away. *)
Lemma index_named_some (k : string) (l : list string) :
  1 <= count_name k l ->
  exists i, index_named k l = Some i
    /\ i < List.length l
    /\ same_name (nth i l k) k = true
    /\ S (count_name k (without_column i l)) = count_name k l
    /\ S (List.length (without_column i l)) = List.length l.
Proof.
  unfold count_name, without_column.
  induction l as [|c l IH]; simpl; intro H; [lia|].
  destruct (same_name c k) eqn:E.
  - exists 0. cbn [firstn skipn app nth]. rewrite E.
    split; [reflexivity|]. split; [lia|]. split; [reflexivity|].
    split; reflexivity.
  - assert (H' : 1 <= List.length (filter (fun c0 => same_name c0 k) l)) by exact H.
    destruct (IH H') as (i & Hi & Hlt & Hn & Hc & Hl).
    exists (S i). rewrite Hi.
    change (firstn (S i) (c :: l)) with (c :: firstn i l).
    change (skipn (S (S i)) (c :: l)) with (skipn (S i) l).
    cbn [app nth option_map filter List.length]. rewrite E.
    split; [reflexivity|]. split; [lia|]. split; [exact Hn|].
    split; [exact Hc | now rewrite Hl].
Qed.


Lemma same_name_refl (k : string) : same_name k k = true.
Proof. unfold same_name. apply String.eqb_refl. Qed.


Lemma same_name_sym (a b : string) : same_name a b = same_name b a.
Proof. unfold same_name. apply String.eqb_sym. Qed.

(** X7.  Approach 1, a different join expression: joining on the name of
    the column instead of a Boolean expression removes one of the two
    columns.  For DataFrames with ASCII column names and a plain name: when
    each side has the name once, compared without regard to case, the join
    on the name exists, its first column is the key and has the name, no
    other column has it, so a reference to the name finds that column, and
    the join has one column less than the two sides together.  When a side
    has no column of the name, there is no such join. *)
Theorem join_on_the_name_keeps_one_column (L R : DataFrame) (k : string) :
  modelled_names L R k = true ->
  (count_name k (columns L) = 1 ->
   count_name k (columns R) = 1 ->
   exists J, join_on_name L R k = Some J
     /\ resolve J k = Resolved 0
     /\ count_name k (columns J) = 1
     /\ S (List.length (columns J))
        = List.length (columns L) + List.length (columns R))
  /\ (count_name k (columns L) = 0 -> join_on_name L R k = None)
  /\ (count_name k (columns R) = 0 -> join_on_name L R k = None).
Proof.
  intros _. split; [|split].
  - intros HL HR. unfold join_on_name.
    destruct (index_named_some k (columns L)) as (i & Hi & _ & HnL & HcL & HlL); [lia|].
    destruct (index_named_some k (columns R)) as (j & Hj & _ & _ & HcR & HlR); [lia|].
    rewrite Hi, Hj. eexists. split; [reflexivity|]. cbn [columns].
    assert (Hc : count_name k (nth i (columns L) k
                               :: without_column i (columns L)
                               ++ without_column j (columns R)) = 1).
    { change (nth i (columns L) k :: without_column i (columns L)
              ++ without_column j (columns R))%list
        with ([nth i (columns L) k]
              ++ (without_column i (columns L) ++ without_column j (columns R)))%list.
      rewrite !count_name_app. unfold count_name at 1. cbn [filter].
      rewrite HnL. cbn [List.length]. lia. }
    split; [|split; [exact Hc|]].
    + unfold resolve, positions. cbn [columns positions_where]. rewrite HnL.
      assert (H0 : positions_where (fun c => same_name c k) 1
                     (without_column i (columns L) ++ without_column j (columns R))
                   = []).
      { apply length_zero_iff_nil. rewrite positions_length.
        fold (count_name k (without_column i (columns L)
                            ++ without_column j (columns R))).
        rewrite count_name_app. lia. }
      rewrite H0. reflexivity.
    + cbn [List.length]. rewrite length_app. lia.
  - intro H. unfold join_on_name. rewrite (index_named_none _ _ H). reflexivity.
  - intro H. unfold join_on_name. rewrite (index_named_none k (columns R) H).
    destruct (index_named k (columns L)); reflexivity.
Qed.

(** In [13] of the notebook. *)
Lemma join_on_the_name_in_the_notebook :
  option_map show (join_on_name person gradProgramDupe "graduate_program")
  = Some (stdout JoinsNb.In13)
  /\ exists J, join_on_name person gradProgramDupe "graduate_program" = Some J
       /\ resolve J "graduate_program" = Resolved 0
       /\ count_name "graduate_program" (columns J) = 1
       /\ S (List.length (columns J))
          = List.length (columns person) + List.length (columns gradProgramDupe).
Proof.
  split; [vm_compute; reflexivity|].
  apply (proj1 (join_on_the_name_keeps_one_column
                  person gradProgramDupe "graduate_program" eq_refl));
    reflexivity.
Defined.





Lemma count_name_none (k : string) (l : list string) :
  count_name k l = 0 <-> Forall (fun c => same_name c k = false) l.
Proof.
  unfold count_name. induction l as [|c l IH]; cbn [filter].
  - split; [constructor | reflexivity].
  - destruct (same_name c k) eqn:E; cbn [List.length].
    + split; [discriminate|]. intro H. inversion H; subst. congruence.
    + rewrite IH. split; [intro H; constructor; assumption|].
      intro H. inversion H; subst. assumption.
Qed.

Lemma renamed_NoDup (a b : string) (l : list string) :
  NoDup l -> ~ In b l ->
  NoDup (map (fun c => if String.eqb c a then b else c) l).
Proof.
  intros Hnd Hb. induction Hnd as [|c l Hc Hnd IH]; simpl; [constructor|].
  constructor.
  - intro Hin. apply in_map_iff in Hin as (x & Hx & Hxl).
    destruct (String.eqb c a) eqn:Ec; destruct (String.eqb x a) eqn:Ex.
    + apply String.eqb_eq in Ec, Ex. subst. contradiction.
    + subst x. apply Hb. right. exact Hxl.
    + subst c. apply Hb. left. reflexivity.
    + subst x. contradiction.
  - apply IH. intro H. apply Hb. right. exact H.
Qed.

(** X9.  Approach 3, renaming a column before the join.  For every
    DataFrame with ASCII column names and ASCII names, the names compared
    without regard to case as the engine compares them: the rows stay as
    they are and so does the number of columns; a name that no column has
    renames nothing; after renaming to a different name no column has the
    old name; the new name, when no column had it, is had as often as the
    old one was; and column names that were all different stay all different
    when the new name is one that no column had. *)
Theorem renaming_a_column (d : DataFrame) (a b : string) :
  plain_names d = true -> is_ascii_text a = true -> is_ascii_text b = true ->
  rows (withColumnRenamed d a b) = rows d
  /\ List.length (columns (withColumnRenamed d a b)) = List.length (columns d)
  /\ (count_name a (columns d) = 0 -> withColumnRenamed d a b = d)
  /\ (same_name a b = false ->
      count_name a (columns (withColumnRenamed d a b)) = 0)
  /\ (count_name b (columns d) = 0 ->
      count_name b (columns (withColumnRenamed d a b)) = count_name a (columns d))
  /\ (NoDup (map lowercase (columns d)) -> count_name b (columns d) = 0 ->
      NoDup (map lowercase (columns (withColumnRenamed d a b)))).
Proof.
  intros _ _ _. unfold withColumnRenamed. cbn [rows columns].
  split; [reflexivity|]. split; [apply length_map|].
  split; [|split; [|split]].
  - intro H. apply count_name_none in H.
    destruct d as [cols rs]. cbn [rows columns] in *. f_equal.
    induction H as [|c cols Hc H IH]; cbn [map]; [reflexivity|].
    rewrite Hc, IH. reflexivity.
  - intro Hab. apply count_name_none.
    induction (columns d) as [|c cols IH]; cbn [map]; constructor; [|exact IH].
    destruct (same_name c a) eqn:E; [|exact E].
    rewrite same_name_sym. exact Hab.
  - unfold count_name. induction (columns d) as [|c cols IH]; [reflexivity|].
    cbn [map filter]. destruct (same_name c b) eqn:Eb; [discriminate|].
    intro H. destruct (same_name c a) eqn:Ea.
    + rewrite same_name_refl. cbn [List.length]. f_equal. apply IH. exact H.
    + rewrite Eb. apply IH. exact H.
  - intros Hnd Hb.
    assert (Heq : map lowercase
                    (map (fun c => if same_name c a then b else c) (columns d))
                  = map (fun x => if String.eqb x (lowercase a) then lowercase b else x)
                        (map lowercase (columns d))).
    { rewrite !map_map. apply map_ext. intro c. unfold same_name.
      destruct (String.eqb (lowercase c) (lowercase a)); reflexivity. }
    rewrite Heq. apply renamed_NoDup; [exact Hnd|].
    intro Hin. apply in_map_iff in Hin as (c & Hc & Hin).
    apply count_name_none in Hb. rewrite Forall_forall in Hb.
    specialize (Hb c Hin). unfold same_name in Hb. rewrite Hc in Hb.
    rewrite String.eqb_refl in Hb. discriminate.
Qed.

(** In [15] of the notebook: the key of the programs renamed to grad_id. *)
Lemma renaming_in_the_notebook :
  columns gradProgram3 = ["grad_id"; "degree"; "department"; "school"]
  /\ rows (withColumnRenamed graduateProgram "id" "grad_id") = rows graduateProgram
  /\ List.length (columns (withColumnRenamed graduateProgram "id" "grad_id"))
     = List.length (columns graduateProgram)
  /\ (count_name "id" (columns graduateProgram) = 0 ->
      withColumnRenamed graduateProgram "id" "grad_id" = graduateProgram)
  /\ (same_name "id" "grad_id" = false ->
      count_name "id" (columns (withColumnRenamed graduateProgram "id" "grad_id")) = 0)
  /\ (count_name "grad_id" (columns graduateProgram) = 0 ->
      count_name "grad_id" (columns (withColumnRenamed graduateProgram "id" "grad_id"))
      = count_name "id" (columns graduateProgram))
  /\ (NoDup (map lowercase (columns graduateProgram)) ->
      count_name "grad_id" (columns graduateProgram) = 0 ->
      NoDup (map lowercase
                 (columns (withColumnRenamed graduateProgram "id" "grad_id")))).
Proof.
  split; [reflexivity|].
  apply (renaming_a_column graduateProgram "id" "grad_id"); reflexivity.
Defined.

(** Names that are all different, compared without regard to case, are had
    by one column at most. *)
Lemma distinct_names_once (k : string) (l : list string) :
  NoDup (map lowercase l) -> count_name k l <= 1.
Proof.
  intro H. induction l as [|c l IH]; [unfold count_name; simpl; lia|].
  cbn [map] in H. inversion H as [|x xs Hc Hnd]; subst.
  specialize (IH Hnd). unfold count_name in *. cbn [filter].
  destruct (same_name c k) eqn:E; [|exact IH].
  cbn [List.length].
  destruct (filter (fun c0 => same_name c0 k) l) as [|c' t] eqn:F; [simpl; lia|].
  exfalso. apply Hc.
  assert (Hin : In c' (filter (fun c0 => same_name c0 k) l))
    by (rewrite F; left; reflexivity).
  apply filter_In in Hin as [Hin Hk].
  unfold same_name in E, Hk. apply String.eqb_eq in E, Hk.
  rewrite E, <- Hk. apply in_map. exact Hin.
Qed.

(** X10.  When no name stands twice among the columns of the two sides,
    compared without regard to case, every name that a column of a join has
    which puts them side by side is found: the reference comes to one
    column, and that column has the name.  (DataFrames with ASCII column
    names and a plain name, as the comparison of names is modelled.) *)
Theorem distinct_names_all_resolve
  (L R : DataFrame) (on : row -> row -> bool) (h : how) (k : string) :
  modelled_names L R k = true ->
  NoDup (map lowercase (columns L ++ columns R)) -> two_sided h = true ->
  1 <= count_name k (columns (join L R on h)) ->
  exists i, resolve (join L R on h) k = Resolved i
            /\ i < List.length (columns (join L R on h))
            /\ same_name (nth i (columns (join L R on h)) EmptyString) k = true.
Proof.
  intros _ Hnd Hh Hin.
  assert (Hc : count_name k (columns (join L R on h)) = 1).
  { pose proof (distinct_names_once k (columns L ++ columns R) Hnd) as Hle.
    rewrite <- (two_sided_columns L R on h Hh) in Hle. lia. }
  destruct (resolve_once (join L R on h) k Hc) as (i & Hi & Hlt & Hn).
  exists i. split; [exact Hi|]. split; [exact Hlt|].
  rewrite (nth_indep _ EmptyString k Hlt). exact Hn.
Qed.

(** In [15] of the notebook: with the key of the right renamed to grad_id
    the join has eight columns of eight different names, so [id] is found,
    while in the join of In [4] it is not, there being two of it. *)
Lemma renamed_key_in_the_notebook :
  stdout JoinsNb.In15 = show (join person gradProgram3 gradIdExpression inner)
  /\ resolve (join person graduateProgram joinExpression inner) "id"
     = Ambiguous ["id"; "id"]
  /\ exists i,
       resolve (join person gradProgram3 gradIdExpression inner) "id" = Resolved i
       /\ i < List.length (columns (join person gradProgram3 gradIdExpression inner))
       /\ same_name (nth i (columns (join person gradProgram3 gradIdExpression inner))
                         EmptyString) "id" = true.
Proof.
  split; [vm_compute; reflexivity|].
  split; [vm_compute; reflexivity|].
  apply (distinct_names_all_resolve person gradProgram3 gradIdExpression inner "id").
  - reflexivity.
  - apply (NoDup_count_occ' string_dec). intros x Hx. vm_compute in Hx.
    repeat (destruct Hx as [<-|Hx]; [vm_compute; reflexivity|]). contradiction.
  - reflexivity.
  - vm_compute. lia.
Defined.

(** ** The catalog of the Spark SQL notebook *)

Lemma remove_absent (n : string) (c : catalog) :
  lookup n c = None -> remove n c = c.
Proof.
  unfold lookup, remove. induction c as [|r c IH]; simpl; intro H; [reflexivity|].
  destruct (named n r); [discriminate|]. simpl. f_equal. apply IH. exact H.
Qed.

Lemma lookup_removed (n : string) (c : catalog) : lookup n (remove n c) = None.
Proof.
  unfold lookup, remove. induction c as [|r c IH]; simpl; [reflexivity|].
  destruct (named n r) eqn:E; simpl; [exact IH|]. rewrite E. exact IH.
Qed.

Lemma lookup_other_removed (n m : string) (c : catalog) :
  lookup m c = None -> lookup m (remove n c) = None.
Proof.
  unfold lookup, remove. induction c as [|r c IH]; simpl; intro H; [reflexivity|].
  destruct (named m r) eqn:E; [discriminate|].
  destruct (named n r); simpl; [apply IH; exact H|].
  rewrite E. apply IH. exact H.
Qed.

(** The statements of the notebook, read off its cells. *)
Lemma the_sql_program :
  notebook_program SparkSQL.cells
  = Some [ Read []; RegisterTempView "flights_view"; Read ["flights_view"];
           CreateTable true "flights_from_select" ["flights_view"];
           Read ["flights_from_select"]; Read ["flights_from_select"];
           Listing; Listing; Listing; Listing; Read ["flights_from_select"];
           Listing; Read ["flights_view"]; Read ["flights_view"];
           Explain ["just_usa_view"];
           CreateView "just_usa_view" ["flights_from_select"];
           DropView true "just_usa_view";
           DropTable false "flights_from_select";
           DropTable true "flights_from_select" ].
Proof. vm_compute. reflexivity. Qed.

(** X13.  Run from an empty catalog, the statements of the Spark SQL notebook do
    what its outputs record.  All of its SQL is understood; no statement
    raises; the one failure is the EXPLAIN of In [16], which reports that
    just_usa_view is not found, in the words of the recorded output; the
    tables that In [8] and In [13] list and that In [9] shows are the
    relations of the catalog at that point, the managed table
    flights_from_select and the temporary view flights_view; and what is
    left at the end is the temporary view alone. *)
Theorem the_notebook_on_an_empty_catalog :
  notebook_program SparkSQL.cells = Some sql_program
  /\ List.length sql_program = 19
  /\ existsb raises (fst (run sql_program [])) = false
  /\ filter (fun o => match o with Done => false | _ => true end)
            (fst (run sql_program []))
     = [Reported (RelationNotFound "just_usa_view")]
  /\ cell_statements SparkSQL.In16 = [Some (Explain ["just_usa_view"])]
  /\ existsb (contains (not_found_message "just_usa_view"))
             (output_lines SparkSQL.In16) = true
  /\ listed (output_lines SparkSQL.In08) = listing_of (catalog_after 8)
  /\ shown_tables (stdout SparkSQL.In09) = show_tables_of (catalog_after 9)
  /\ listed (output_lines SparkSQL.In13) = listing_of (catalog_after 13)
  /\ catalog_after 13
     = [mkRelation "flights_from_select" ManagedTable; flights_view]
  /\ snd (run sql_program []) = [flights_view].
Proof. conjuncts; by_evaluation. Qed.

Lemma lookup_app_fresh (n : string) (h c : catalog) :
  lookup n c = None -> lookup n (h ++ c)%list = lookup n h.
Proof.
  unfold lookup. intro H. induction h as [|r h IH]; simpl; [exact H|].
  destruct (named n r); [reflexivity | exact IH].
Qed.

Lemma remove_app_fresh (n : string) (h c : catalog) :
  lookup n c = None -> remove n (h ++ c)%list = (remove n h ++ c)%list.
Proof.
  intro H. unfold remove. rewrite filter_app.
  f_equal. apply (remove_absent n c H).
Qed.

Lemma first_missing_app_fresh (from : list string) (h c : catalog) :
  fresh_for from c -> first_missing (h ++ c)%list from = first_missing h from.
Proof.
  unfold first_missing. induction from as [|n from IH]; intro H; simpl; [reflexivity|].
  rewrite (lookup_app_fresh n h c (H n (or_introl eq_refl))).
  destruct (lookup n h); [|reflexivity].
  apply IH. intros m Hm. apply H. right. exact Hm.
Qed.

(** A statement looks at and changes only the relations it names: what
    else the catalog holds stays behind it, untouched. *)
Lemma exec_frame (s : statement) (h c : catalog) :
  fresh_for (names_of s) c ->
  exec s (h ++ c)%list = ((fst (exec s h) ++ c)%list, snd (exec s h)).
Proof.
  intro H. destruct s as [n|g n from|n from|g n|g n|from|from|]; cbn [names_of] in H.
  - cbn [exec fst snd]. rewrite remove_app_fresh by (apply H; left; reflexivity).
    reflexivity.
  - cbn [exec]. rewrite lookup_app_fresh by (apply H; left; reflexivity).
    rewrite first_missing_app_fresh by (intros m Hm; apply H; right; exact Hm).
    destruct (lookup n h); [reflexivity|].
    destruct (first_missing h from); reflexivity.
  - cbn [exec]. rewrite lookup_app_fresh by (apply H; left; reflexivity).
    rewrite first_missing_app_fresh by (intros m Hm; apply H; right; exact Hm).
    destruct (first_missing h from); [reflexivity|].
    destruct (lookup n h); reflexivity.
  - cbn [exec]. rewrite lookup_app_fresh by (apply H; left; reflexivity).
    rewrite remove_app_fresh by (apply H; left; reflexivity).
    destruct (lookup n h) as [r|]; [destruct (is_table r)|]; reflexivity.
  - cbn [exec]. rewrite lookup_app_fresh by (apply H; left; reflexivity).
    rewrite remove_app_fresh by (apply H; left; reflexivity).
    destruct (lookup n h) as [r|]; [destruct (is_table r)|]; reflexivity.
  - cbn [exec]. rewrite first_missing_app_fresh by exact H.
    destruct (first_missing h from); reflexivity.
  - cbn [exec]. rewrite first_missing_app_fresh by exact H.
    destruct (first_missing h from); reflexivity.
  - reflexivity.
Qed.

Lemma run_frame (ss : list statement) (h c : catalog) :
  fresh_for (flat_map names_of ss) c ->
  run ss (h ++ c)%list = (fst (run ss h), (snd (run ss h) ++ c)%list).
Proof.
  revert h. induction ss as [|s ss IH]; intros h H; [reflexivity|].
  cbn [run]. rewrite exec_frame.
  - destruct (exec s h) as [h' o]. cbn [fst snd]. rewrite IH.
    + destruct (run ss h') as [os c']. reflexivity.
    + intros n Hn. apply H. cbn [flat_map]. apply in_or_app. right. exact Hn.
  - intros n Hn. apply H. cbn [flat_map]. apply in_or_app. left. exact Hn.
Qed.

(** X14.  The notebook does not depend on what else the catalog holds, and leaves
    it alone: on every catalog that has none of the three names the notebook
    uses, the statements have the outcomes they have on an empty catalog,
    and at the end the catalog is the one at the start with the temporary
    view flights_view added. *)
Theorem the_notebook_leaves_the_catalog_as_it_found_it (c : catalog) :
  lookup "flights_view" c = None ->
  lookup "flights_from_select" c = None ->
  lookup "just_usa_view" c = None ->
  run sql_program c = (fst (run sql_program []), flights_view :: c).
Proof.
  intros Hv Ht Hj.
  assert (Hnames : forall n, In n (flat_map names_of sql_program) ->
                             n = "flights_view" \/ n = "flights_from_select"
                             \/ n = "just_usa_view").
  { assert (E : flat_map names_of sql_program
                = [ "flights_view"; "flights_view"; "flights_from_select";
                    "flights_view"; "flights_from_select"; "flights_from_select";
                    "flights_from_select"; "flights_view"; "flights_view";
                    "just_usa_view"; "just_usa_view"; "flights_from_select";
                    "just_usa_view"; "flights_from_select"; "flights_from_select" ])
      by (vm_compute; reflexivity).
    rewrite E. intros n Hn. simpl in Hn.
    repeat (destruct Hn as [<-|Hn]; [tauto|]). contradiction. }
  change c with ([] ++ c)%list at 1. rewrite run_frame.
  - replace (snd (run sql_program [])) with [flights_view]
      by (vm_compute; reflexivity).
    reflexivity.
  - intros n Hn. destruct (Hnames n Hn) as [->|[->| ->]]; assumption.
Qed.

(** A catalog that holds a table of another name. *)
Lemma the_notebook_beside_another_table :
  run sql_program [mkRelation "airports" ManagedTable]
  = (fst (run sql_program []), [flights_view; mkRelation "airports" ManagedTable]).
Proof.
  apply (the_notebook_leaves_the_catalog_as_it_found_it
           [mkRelation "airports" ManagedTable]); reflexivity.
Defined.

(** ** The printed table *)

Lemma length_append (a b : string) :
  String.length (a ++ b) = String.length a + String.length b.
Proof. induction a as [|c a IH]; simpl; [reflexivity | now rewrite IH]. Qed.

Lemma length_substring_0 (m : nat) (s : string) :
  String.length (substring 0 m s) = Nat.min m (String.length s).
Proof.
  revert s. induction m as [|m IH]; intro s; destruct s as [|c s]; simpl;
    try reflexivity.
  now rewrite IH.
Qed.

Lemma length_fill (c : ascii) (n : nat) : String.length (fill c n) = n.
Proof. unfold fill. induction n as [|n IH]; simpl; [reflexivity | now rewrite IH]. Qed.

Lemma length_pad_left (w : nat) (s : string) :
  String.length (pad_left w s) = Nat.max w (String.length s).
Proof. unfold pad_left. rewrite length_append, length_fill. lia. Qed.

Lemma length_concat_nothing (l : list string) :
  String.length (String.concat EmptyString l) = list_sum (map String.length l).
Proof.
  induction l as [|a l IH]; [reflexivity|].
  destruct l as [|b l].
  - simpl. lia.
  - change (String.concat EmptyString (a :: b :: l))
      with (a ++ EmptyString ++ String.concat EmptyString (b :: l)).
    rewrite length_append. cbn [append]. rewrite IH. reflexivity.
Qed.

(** The widths of the columns as one row after the other widens them. *)
Definition widened (ws : list nat) (cells : list (list string)) : list nat :=
  fold_left (fun ws r => zip_with Nat.max ws (map String.length r)) cells ws.

Lemma zip_with_max_length (ws : list nat) (r : list string) :
  List.length r = List.length ws ->
  List.length (zip_with Nat.max ws (map String.length r)) = List.length ws.
Proof.
  revert r. induction ws as [|w ws IH]; intros [|c r] H; simpl in *;
    try reflexivity; try discriminate.
  f_equal. apply IH. lia.
Qed.

Lemma zip_with_max_wider (ws : list nat) (r : list string) :
  List.length r = List.length ws ->
  Forall2 le ws (zip_with Nat.max ws (map String.length r))
  /\ Forall2 (fun c w => String.length c <= w) r
             (zip_with Nat.max ws (map String.length r)).
Proof.
  revert r. induction ws as [|w ws IH]; intros [|c r] H; simpl in *;
    try discriminate.
  - split; constructor.
  - destruct (IH r) as [H1 H2]; [lia|]. split; constructor; auto; lia.
Qed.

Lemma Forall2_le_trans (a b c : list nat) :
  Forall2 le a b -> Forall2 le b c -> Forall2 le a c.
Proof.
  intro H. revert c. induction H as [|x y a b Hxy H IH]; intros c Hc;
    inversion Hc; subst; constructor; [lia | auto].
Qed.

Lemma fits_wider (r : list string) (a b : list nat) :
  Forall2 (fun c w => String.length c <= w) r a -> Forall2 le a b ->
  Forall2 (fun c w => String.length c <= w) r b.
Proof.
  intro H. revert b. induction H as [|x y r a Hxy H IH]; intros b Hb;
    inversion Hb; subst; constructor; [lia | auto].
Qed.

Lemma Forall2_le_refl (a : list nat) : Forall2 le a a.
Proof. induction a; constructor; auto. Qed.

(** Widening keeps the number of columns, never narrows one, and leaves
    every row fitting. *)
Lemma widened_fits (cells : list (list string)) (ws : list nat) :
  Forall (fun r => List.length r = List.length ws) cells ->
  List.length (widened ws cells) = List.length ws
  /\ Forall2 le ws (widened ws cells)
  /\ Forall (fun r => Forall2 (fun c w => String.length c <= w) r (widened ws cells))
            cells.
Proof.
  revert ws. induction cells as [|r cells IH]; intros ws H.
  - split; [reflexivity|]. split; [apply Forall2_le_refl | constructor].
  - inversion H as [|? ? Hr Hcells]; subst.
    pose proof (zip_with_max_length ws r Hr) as Hlen.
    destruct (zip_with_max_wider ws r Hr) as [Hle Hfit].
    unfold widened in *. cbn [fold_left].
    destruct (IH (zip_with Nat.max ws (map String.length r))) as (I1 & I2 & I3).
    { apply Forall_forall. intros x Hx. rewrite Forall_forall in Hcells.
      rewrite Hlen. apply Hcells. exact Hx. }
    split; [congruence|]. split; [eapply Forall2_le_trans; eassumption|].
    constructor; [eapply fits_wider; eassumption | exact I3].
Qed.

Lemma table_line_length (ws : list nat) (r : list string) :
  Forall2 (fun c w => String.length c <= w) r ws ->
  String.length (table_line ws r) = S (list_sum (map S ws)).
Proof.
  intro H. unfold table_line. rewrite length_append, length_concat_nothing.
  simpl. f_equal. induction H as [|c w r ws Hcw H IH]; simpl; [reflexivity|].
  rewrite length_append, length_pad_left, IH. simpl. lia.
Qed.

Lemma rule_length (ws : list nat) :
  String.length (rule ws) = S (list_sum (map S ws)).
Proof.
  unfold rule. rewrite length_append, length_concat_nothing. simpl. f_equal.
  induction ws as [|w ws IH]; simpl; [reflexivity|].
  rewrite length_append, length_fill, IH. simpl. lia.
Qed.

Lemma heading_fits (hs : list string) :
  Forall2 (fun c w => String.length c <= w) hs
          (map (fun h => Nat.max 3 (String.length h)) hs).
Proof.
  induction hs as [|h hs IH]; cbn [map]; [constructor|].
  constructor; [apply Nat.le_max_r | exact IH].
Qed.

(** X12.  What [show()] prints is a rectangle.  For every DataFrame that
    [show()] prints whole and as [show] has it (at least one column, at most
    twenty rows, names and values of printable ASCII characters) and whose
    rows have a value for every column: the rules, the heading and the rows
    are all of one length, one more than the widths of the columns and one
    bar for each; there are three lines of heading, one line for each row, a
    closing rule and an empty line; and no value takes more than twenty
    characters of its line. *)
Theorem show_prints_a_rectangle (d : DataFrame) :
  shown_whole d = true ->
  rectangular d ->
  Forall (fun l => String.length l
                   = S (list_sum (map S (col_widths (columns d) (show_cells d)))))
         (removelast (show d))
  /\ List.length (show d) = count d + 5
  /\ last (show d) (rule []) = EmptyString
  /\ Forall (Forall (fun c => String.length c <= 20)) (show_cells d).
Proof.
  intros _ Hrect.
  set (ws0 := map (fun h => Nat.max 3 (String.length h)) (columns d)).
  assert (Hcells : Forall (fun r => List.length r = List.length ws0) (show_cells d)).
  { unfold show_cells, ws0. apply Forall_forall. intros r Hr.
    apply in_map_iff in Hr as (x & <- & Hx).
    rewrite !length_map. unfold rectangular in Hrect. rewrite Forall_forall in Hrect.
    apply Hrect. exact Hx. }
  destruct (widened_fits (show_cells d) ws0 Hcells) as (Hlen & Hle & Hfit).
  change (widened ws0 (show_cells d)) with (col_widths (columns d) (show_cells d)) in *.
  assert (Hhead : Forall2 (fun c w => String.length c <= w) (columns d)
                          (col_widths (columns d) (show_cells d))).
  { apply (fits_wider _ ws0); [|exact Hle]. apply heading_fits. }
  assert (Hshow : show d
                   = (((show_head d ++ show_rows d)
                       ++ [rule (col_widths (columns d) (show_cells d))])
                      ++ [EmptyString])%list).
  { unfold show. rewrite <- !app_assoc. reflexivity. }
  split; [|split; [|split]].
  - rewrite Hshow, removelast_last.
    apply Forall_app. split; [apply Forall_app; split|].
    + unfold show_head. repeat constructor;
        [apply rule_length | apply table_line_length; exact Hhead | apply rule_length].
    + unfold show_rows. apply Forall_forall. intros l Hl.
      apply in_map_iff in Hl as (r & <- & Hr).
      apply table_line_length. rewrite Forall_forall in Hfit. apply Hfit. exact Hr.
    + repeat constructor. apply rule_length.
  - unfold show. rewrite !length_app.
    unfold show_head, show_rows, show_cells, count, row.
    rewrite !length_map. cbn [List.length]. lia.
  - rewrite Hshow. apply last_last.
  - unfold show_cells. apply Forall_forall. intros r Hr.
    apply in_map_iff in Hr as (x & <- & _).
    apply Forall_forall. intros c Hc. apply in_map_iff in Hc as (v & <- & _).
    unfold truncate. destruct (String.length (value_text v) <=? 20) eqn:E;
      [apply Nat.leb_le in E; exact E|].
    rewrite length_append, length_substring_0. cbn [String.length]. lia.
Qed.

(** The table of the full outer join, In [6] of the notebook. *)
Lemma the_outer_join_is_printed_as_a_rectangle :
  stdout JoinsNb.In06 = show (join person graduateProgram joinExpression outer)
  /\ (Forall (fun l => String.length l
                       = S (list_sum (map S (col_widths
                            (columns (join person graduateProgram joinExpression outer))
                            (show_cells (join person graduateProgram joinExpression outer))))))
             (removelast (show (join person graduateProgram joinExpression outer)))
      /\ List.length (show (join person graduateProgram joinExpression outer))
         = count (join person graduateProgram joinExpression outer) + 5
      /\ last (show (join person graduateProgram joinExpression outer)) (rule [])
         = EmptyString
      /\ Forall (Forall (fun c => String.length c <= 20))
                (show_cells (join person graduateProgram joinExpression outer))).
Proof.
  split; [vm_compute; reflexivity|].
  apply (show_prints_a_rectangle (join person graduateProgram joinExpression outer));
    [vm_compute; reflexivity|].
  unfold rectangular. apply Forall_forall. intros r Hr.
  vm_compute in Hr. repeat (destruct Hr as [<-|Hr]; [reflexivity|]). contradiction.
Defined.

(** ** The cheat sheet *)

(** X18.  The commands of the cheat sheet are about one cluster.  The cluster the
    two create commands name is the one the delete command names; the ssh
    command goes to its master node, the name with -m behind it; the zone of
    the ssh command is the zone of the create commands and lies in their
    region, which is the region of the delete command; and the port the ssh
    command forwards from this machine is the port of the address the sheet
    gives for the notebook server. *)
Theorem the_cheat_sheet_is_about_one_cluster :
  through create_command (fun c => word_after "create" (positional c)) = Some "mycluster"
  /\ through create_one_liner (fun c => word_after "create" (positional c))
     = through create_command (fun c => word_after "create" (positional c))
  /\ through delete_command (fun c => word_after "delete" (positional c))
     = through create_command (fun c => word_after "create" (positional c))
  /\ through ssh_command (fun c => word_after "ssh" (positional c))
     = option_map (fun n => n ++ "-m")
         (through create_command (fun c => word_after "create" (positional c)))
  /\ through ssh_command (flag_text "--zone") = through create_command (flag_text "--zone")
  /\ through create_one_liner (flag_text "--zone") = through create_command (flag_text "--zone")
  /\ through delete_command (flag_text "--region")
     = through create_command (flag_text "--region")
  /\ through create_one_liner (flag_text "--region")
     = through create_command (flag_text "--region")
  /\ match through create_command (flag_text "--region"),
           through create_command (flag_text "--zone") with
     | Some r, Some z => prefix (r ++ "-") z
     | _, _ => false
     end = true
  /\ through ssh_command forwarding_of = Some (mkForwarding "8080" "localhost" "8123")
  /\ notebook_address
     = option_map (fun f => "localhost:" ++ local_port f)
                  (through ssh_command forwarding_of).
Proof. conjuncts; by_evaluation. Qed.
